(** * FINN example driver: transcoding pipeline and transfer protocol

    A shallow embedding of [finn_examples/driver.py] (class
    [FINNExampleOverlay]) together with the bit packer it calls, and the
    properties of the data transcoding pipeline and of the DMA transfer
    protocol.

    Layout: data model, the bit packer, the driver (a state-and-exception
    monad over the Python object, the board and an event trace), then the
    lemmas and theorems. *)

From Stdlib Require Import String ZArith List Bool Lia QArith.
Import ListNotations.

Local Open Scope string_scope.
Local Open Scope list_scope.
Local Open Scope Z_scope.

(** ** Arrays and exceptions *)

(** A NumPy array: its shape tuple and its elements in row-major order.
    Elements are kept as integers (the driver moves integer-valued tensors). *)
Record ndarray : Type := NdArray {
  shape : list Z;
  data : list Z
}.

(** Number of elements a shape tuple describes. *)
Definition prod_shape (s : list Z) : Z := fold_right Z.mul 1 s.

(** An array whose element list has the length its shape announces. *)
Definition wf_ndarray (x : ndarray) : Prop :=
  Forall (fun d => 0 <= d) (shape x) /\
  length (data x) = Z.to_nat (prod_shape (shape x)).

(** Equality of two tuples of ints, as Python's [==] on shape tuples (and
    NumPy's [(a == b).all()] on two vectors of the same length). *)
Fixpoint ints_eqb (s t : list Z) : bool :=
  match s, t with
  | [], [] => true
  | a :: s', b :: t' => (a =? b) && ints_eqb s' t'
  | _, _ => false
  end.

(** The Python exceptions the driver and its collaborators raise. *)
Inductive exn : Type :=
| AssertionError (msg : string)
| ValueError (msg : string)
| IndexError (msg : string)
| TypeError (msg : string)
| AttributeError (msg : string)
| RangeError (msg : string)
| Exception (msg : string).

(** The shape [ndarray.reshape] resolves a requested tuple [s] to, for an
    array of [size] elements.  A negative entry (the [-1] of NumPy's
    documentation; the implementation tests [< 0]) stands for the one
    dimension that is inferred from the others: the known dimensions must
    have a non-zero product that divides [size].  Without such an entry the
    element counts must agree. *)
Definition resolve_shape (size : Z) (s : list Z) : exn + list Z :=
  let known := prod_shape (filter (fun d => 0 <=? d) s) in
  match filter (fun d => d <? 0) s with
  | [] =>
      if known =? size then inr s
      else inl (ValueError "cannot reshape array")
  | [_] =>
      if (known =? 0) || negb (size mod known =? 0)
      then inl (ValueError "cannot reshape array")
      else inr (map (fun d => if d <? 0 then size / known else d) s)
  | _ => inl (ValueError "can only specify one unknown dimension")
  end.

(** [ndarray.reshape]: same elements, in the same order, under the resolved
    shape. *)
Definition reshape (x : ndarray) (s : list Z) : exn + ndarray :=
  match resolve_shape (prod_shape (shape x)) s with
  | inr s' => inr {| shape := s'; data := data x |}
  | inl e => inl e
  end.

(** Split a list into [k] consecutive chunks of [n] elements. *)
Fixpoint chunks {A : Type} (k n : nat) (l : list A) : list (list A) :=
  match k with
  | O => []
  | S k' => firstn n l :: chunks k' n (skipn n l)
  end.

(** Outer dimensions and innermost dimension of a shape tuple. *)
Definition split_inner (s : list Z) : option (list Z * Z) :=
  match rev s with
  | [] => None
  | g :: outer => Some (rev outer, g)
  end.

(** NumPy broadcasting, as [np.copyto] applies it to its source.  Unit
    dimensions are stripped from the left of a source that has more
    dimensions than the destination; a source with fewer dimensions gets
    unit dimensions in front. *)
Fixpoint strip_units (extra : nat) (s : list Z) : list Z :=
  match extra, s with
  | S extra', d :: s' => if d =? 1 then strip_units extra' s' else s
  | _, _ => s
  end.

Definition align_shape (src dst : list Z) : list Z :=
  let s := strip_units (length src - length dst) src in
  repeat 1 (length dst - length s) ++ s.

(** Dimension by dimension the source has one entry or as many as the
    destination. *)
Fixpoint broadcastable (src dst : list Z) : bool :=
  match src, dst with
  | [], [] => true
  | sd :: src', dd :: dst' =>
      ((sd =? 1) || (sd =? dd)) && broadcastable src' dst'
  | _, _ => false
  end.

(** The elements of the broadcast source, in row-major order: a unit
    dimension repeats its block along the destination's dimension. *)
Fixpoint broadcast_data (src dst : list Z) (l : list Z) : list Z :=
  match src, dst with
  | sd :: src', dd :: dst' =>
      if sd =? 1 then
        concat (repeat (broadcast_data src' dst' l) (Z.to_nat dd))
      else
        flat_map (broadcast_data src' dst')
                 (chunks (Z.to_nat sd) (Z.to_nat (prod_shape src')) l)
  | _, _ => l
  end.

(** The elements [np.copyto(dst, src)] leaves in a destination of shape
    [dst_shape]: those of [src] when the shapes agree, its broadcast
    otherwise, and a [ValueError] when [src] cannot be broadcast.  Element
    types are not part of the array model; the driver copies bytes to
    bytes. *)
Definition copyto (dst_shape : list Z) (src : ndarray) : exn + list Z :=
  if ints_eqb (shape src) dst_shape then inr (data src)
  else
    let s := align_shape (shape src) dst_shape in
    if broadcastable s dst_shape
    then inr (broadcast_data s dst_shape (data src))
    else inl (ValueError "could not broadcast input array").

(** ** The bit packer *)

Module BitPacker.

(** Element datatype: bit width and signedness. *)
Record datatype : Type := DataType {
  bitwidth : nat;
  signed : bool
}.

(** Whether [v] can be represented in [bitwidth dt] bits for the signedness
    of [dt]. *)
Definition representable (dt : datatype) (v : Z) : bool :=
  let w := Z.of_nat (bitwidth dt) in
  if signed dt
  then (- 2 ^ (w - 1) <=? v) && (v <? 2 ^ (w - 1))
  else (0 <=? v) && (v <? 2 ^ w).

(** The [w] low bits of [v], most significant first. *)
Fixpoint bits_of (w : nat) (v : Z) : list bool :=
  match w with
  | O => []
  | S w' => Z.testbit v (Z.of_nat w') :: bits_of w' v
  end.

(** The unsigned value of a bit field given most significant bit first. *)
Fixpoint value_of_bits (bs : list bool) : Z :=
  match bs with
  | [] => 0
  | b :: r => Z.b2z b * 2 ^ Z.of_nat (length r) + value_of_bits r
  end.

(** Two's-complement sign extension of a [w]-bit field: applied when the
    datatype is signed and the field's top bit is set. *)
Definition sign_extend (dt : datatype) (u : Z) : Z :=
  let w := Z.of_nat (bitwidth dt) in
  if signed dt && Z.testbit u (w - 1) then u - 2 ^ w else u.

(** Bytes of one packed word: Ceil(w * groupSize / 8). *)
Definition nbytes (w g : nat) : nat := ((w * g + 7) / 8)%nat.

(** Modelled from the spec: the packing of one innermost group (a word) by
    [finn.util.data_packing.finnpy_to_packed_bytearray], which is imported by
    the driver and not part of the sources.  Each element takes exactly [w]
    bits, elements are concatenated most-significant-bit-first,
    [reverse_inner] emits the elements of the word in reverse order, the
    final partial byte is padded with zero bits, and [reverse_endian]
    reverses the byte order of the word. *)
Definition pack_word (dt : datatype) (reverse_endian reverse_inner : bool)
    (elems : list Z) : list Z :=
  let es := if reverse_inner then rev elems else elems in
  let bits := flat_map (bits_of (bitwidth dt)) es in
  let nb := nbytes (bitwidth dt) (length elems) in
  let padded := bits ++ repeat false (8 * nb - length bits)%nat in
  let bytes := map value_of_bits (chunks nb 8 padded) in
  if reverse_endian then rev bytes else bytes.

(** Modelled from the spec: the unpacking of one word of [g] elements by
    [finn.util.data_packing.packed_bytearray_to_finnpy], the exact inverse of
    [pack_word], with two's-complement sign extension of signed fields. *)
Definition unpack_word (dt : datatype) (reverse_endian reverse_inner : bool)
    (g : nat) (bytes : list Z) : list Z :=
  let bs := if reverse_endian then rev bytes else bytes in
  let bits := flat_map (bits_of 8) bs in
  let vals := map (fun f => sign_extend dt (value_of_bits f))
                  (chunks g (bitwidth dt) bits) in
  if reverse_inner then rev vals else vals.

(** Modelled from the spec: [finnpy_to_packed_bytearray], missing from the
    sources.  Packs every innermost group of the folded array; the output has
    Ceil(w * groupSize / 8) bytes per word, replicated across all outer
    dimensions.  Fails with a range error if an element is not representable.
    The fast mode is functionally equivalent to the reference mode, so the
    flag does not change the result. *)
Definition finnpy_to_packed_bytearray (x : ndarray) (dt : datatype)
    (reverse_endian reverse_inner fast_mode : bool) : exn + ndarray :=
  match split_inner (shape x) with
  | None => inl (ValueError "expected at least a 1D array")
  | Some (outer, g) =>
      if forallb (representable dt) (data x) then
        let words := chunks (Z.to_nat (prod_shape outer)) (Z.to_nat g) (data x) in
        inr {| shape := outer ++ [Z.of_nat (nbytes (bitwidth dt) (Z.to_nat g))];
               data := flat_map (pack_word dt reverse_endian reverse_inner) words |}
      else inl (RangeError "value not representable in the datatype")
  end.

(** Modelled from the spec: [packed_bytearray_to_finnpy], missing from the
    sources.  Unpacks a byte array into a folded array of the target shape;
    a byte array whose shape does not match the target shape and datatype is
    a precondition violation. *)
Definition packed_bytearray_to_finnpy (p : ndarray) (dt : datatype)
    (target : list Z) (reverse_endian reverse_inner fast_mode : bool)
    : exn + ndarray :=
  match split_inner target with
  | None => inl (ValueError "expected at least a 1D target shape")
  | Some (outer, g) =>
      let nb := nbytes (bitwidth dt) (Z.to_nat g) in
      if ints_eqb (shape p) (outer ++ [Z.of_nat nb]) then
        let words := chunks (Z.to_nat (prod_shape outer)) nb (data p) in
        inr {| shape := target;
               data := flat_map (unpack_word dt reverse_endian reverse_inner
                                             (Z.to_nat g)) words |}
      else inl (ValueError "packed buffer does not match the target shape")
  end.

End BitPacker.

Import BitPacker.

(** ** The driver: state *)

(** The two DMA engines of the accelerator. *)
Inductive dma : Type := IDMA | ODMA.

(** The methods of [FINNExampleOverlay]; the trace records every entry. *)
Inductive method : Type :=
| m_init
| m_load_runtime_weights
| m_batch_size_setter
| m_fold_input
| m_pack_input
| m_unpack_output
| m_unfold_output
| m_copy_input_data_to_device
| m_copy_output_data_from_device
| m_execute_on_buffers
| m_wait_until_finished
| m_execute.

(** What the driver does to the outside world, in program order, together
    with the entries of its own methods. *)
Inductive event : Type :=
| Call (m : method)
| LoadBitfile (bitfile_name : string) (download : bool)
| SetFclk (mhz : Q)
| Allocate (address : Z) (shp : list Z) (cacheable : option bool)
| DropRef (address : Z)
| Flush (address : Z)
| Invalidate (address : Z)
| RegRead (ip : dma) (offset value : Z)
| RegWrite (ip : dma) (offset value : Z)
| DmaStart (ip : dma) (address batch : Z)
| HandleWait (handle : nat)
| WriteMM (layer : Z) (words : list Z).

(** A PYNQ buffer: device address, shape, the bytes it holds and the
    [cacheable] keyword it was allocated with, if any. *)
Record buffer : Type := Buffer {
  device_address : Z;
  buf_shape : list Z;
  buf_data : list Z;
  cacheable : option bool
}.

(** The [io_shape_dict] handed to the constructor. *)
Record io_shape_dict : Type := IoShapeDict {
  io_idt : datatype;
  io_odt : datatype;
  io_ishape_normal : list Z;
  io_oshape_normal : list Z;
  io_ishape_folded : list Z;
  io_oshape_folded : list Z;
  io_ishape_packed : list Z;
  io_oshape_packed : list Z
}.

(** The attributes of a [FINNExampleOverlay] object. *)
Record overlay : Type := Overlay {
  runtime_weight_dir : string;
  _io_shape_dict : io_shape_dict;
  ibuf_packed_device : option buffer;
  obuf_packed_device : option buffer;
  obuf_packed : option ndarray;
  platform : string;
  _batch_size : Z;
  fclk_mhz : Q;
  odma_handle : option nat
}.

(** The board and host environment the driver talks to:
    - [odma_status]: the values the output DMA status register (offset 0x00)
      returns to the coming reads, in order;
    - [accel]: what the programmed dataflow graph computes on packed bytes;
    - [next_address], [next_handle]: supplies of fresh device addresses and
      completion handles;
    - [ip_dict]: the layer indices that have an [s_axilite] interface;
    - [weight_files]: the parsed contents of the runtime weight directory
      (layer index, words), [None] when the directory does not exist;
    - [mmio_readback]: what a layer's memory shows after the given words were
      written to it. *)
Record board : Type := Board {
  odma_status : list Z;
  accel : list Z -> list Z;
  next_address : Z;
  next_handle : nat;
  ip_dict : list Z;
  weight_files : option (list (Z * list Z));
  mmio_readback : Z -> list Z -> list Z
}.

Record state : Type := State {
  self : overlay;
  hw : board;
  trace : list event
}.

Definition set_ibuf_packed_device (b : option buffer) (o : overlay) : overlay :=
  Overlay (runtime_weight_dir o) (_io_shape_dict o) b (obuf_packed_device o)
          (obuf_packed o) (platform o) (_batch_size o) (fclk_mhz o)
          (odma_handle o).

Definition set_obuf_packed_device (b : option buffer) (o : overlay) : overlay :=
  Overlay (runtime_weight_dir o) (_io_shape_dict o) (ibuf_packed_device o) b
          (obuf_packed o) (platform o) (_batch_size o) (fclk_mhz o)
          (odma_handle o).

Definition set_obuf_packed (a : option ndarray) (o : overlay) : overlay :=
  Overlay (runtime_weight_dir o) (_io_shape_dict o) (ibuf_packed_device o)
          (obuf_packed_device o) a (platform o) (_batch_size o) (fclk_mhz o)
          (odma_handle o).

Definition set__batch_size (n : Z) (o : overlay) : overlay :=
  Overlay (runtime_weight_dir o) (_io_shape_dict o) (ibuf_packed_device o)
          (obuf_packed_device o) (obuf_packed o) (platform o) n (fclk_mhz o)
          (odma_handle o).

Definition set_odma_handle (h : option nat) (o : overlay) : overlay :=
  Overlay (runtime_weight_dir o) (_io_shape_dict o) (ibuf_packed_device o)
          (obuf_packed_device o) (obuf_packed o) (platform o) (_batch_size o)
          (fclk_mhz o) h.

Definition set_odma_status (l : list Z) (b : board) : board :=
  Board l (accel b) (next_address b) (next_handle b) (ip_dict b)
        (weight_files b) (mmio_readback b).

Definition set_next_address (a : Z) (b : board) : board :=
  Board (odma_status b) (accel b) a (next_handle b) (ip_dict b)
        (weight_files b) (mmio_readback b).

Definition set_next_handle (h : nat) (b : board) : board :=
  Board (odma_status b) (accel b) (next_address b) h (ip_dict b)
        (weight_files b) (mmio_readback b).

(** ** The driver: a state-and-exception monad *)

(** A method call returns normally, raises, or stalls: the modelled sequence
    of status-register values ended while the call still needed one.  The
    state at that point is kept in all three cases, as a Python exception
    leaves the object as it was when raised. *)
Inductive outcome (A : Type) : Type :=
| Ok (a : A) (s : state)
| Raise (e : exn) (s : state)
| Stalled (s : state).

Arguments Ok {A} a s.
Arguments Raise {A} e s.
Arguments Stalled {A} s.

Definition M (A : Type) : Type := state -> outcome A.

Definition ret {A : Type} (a : A) : M A := fun s => Ok a s.

Definition bind {A B : Type} (c : M A) (k : A -> M B) : M B :=
  fun s =>
    match c s with
    | Ok a s' => k a s'
    | Raise e s' => Raise e s'
    | Stalled s' => Stalled s'
    end.

Notation "x <- c ;; k" := (bind c (fun x => k))
  (at level 61, c at next level, right associativity).
Notation "c ;; k" := (bind c (fun _ => k))
  (at level 61, right associativity).

Definition raise {A : Type} (e : exn) : M A := fun s => Raise e s.

Definition stall {A : Type} : M A := fun s => Stalled s.

Definition lift {A : Type} (r : exn + A) : M A :=
  match r with
  | inl e => raise e
  | inr a => ret a
  end.

Definition assert_ (b : bool) (msg : string) : M unit :=
  if b then ret tt else raise (AssertionError msg).

Definition emit (e : event) : M unit :=
  fun s => Ok tt (State (self s) (hw s) (trace s ++ [e])).

Definition get_self : M overlay := fun s => Ok (self s) s.

Definition get_hw : M board := fun s => Ok (hw s) s.

Definition modify_self (f : overlay -> overlay) : M unit :=
  fun s => Ok tt (State (f (self s)) (hw s) (trace s)).

Definition modify_hw (f : board -> board) : M unit :=
  fun s => Ok tt (State (self s) (f (hw s)) (trace s)).

(** ** The driver: collaborators (PYNQ, NumPy, the board) *)

(** [pynq.allocate(shape, dtype=np.uint8, ...)]: a fresh buffer of bytes.
    NumPy refuses a negative dimension.  The contents of a fresh buffer are
    unspecified; the model fills it with zeros. *)
Definition allocate (shp : list Z) (cacheable : option bool) : M buffer :=
  if forallb (fun d => 0 <=? d) shp then
    b <- get_hw ;;
    let buf := Buffer (next_address b) shp
                      (repeat 0 (Z.to_nat (prod_shape shp))) cacheable in
    modify_hw (set_next_address (next_address b + Z.max 1 (prod_shape shp))) ;;
    emit (Allocate (device_address buf) shp cacheable) ;;
    ret buf
  else raise (ValueError "negative dimensions are not allowed").

(** Dereferencing a buffer attribute that may hold [None]. *)
Definition the_buffer (b : option buffer) : M buffer :=
  match b with
  | Some buf => ret buf
  | None => raise (AttributeError "'NoneType' object has no such attribute")
  end.

(** [self.odma.read(offset)]: the next value of the status sequence.  The
    driver reads no other register than offset 0x00 of the output DMA. *)
Definition odma_read (offset : Z) : M Z :=
  b <- get_hw ;;
  match odma_status b with
  | [] => stall
  | v :: rest =>
      modify_hw (set_odma_status rest) ;;
      emit (RegRead ODMA offset v) ;;
      ret v
  end.

(** [ip.write(offset, value)]. *)
Definition reg_write (ip : dma) (offset value : Z) : M unit :=
  emit (RegWrite ip offset value).

(** [ip.start(buffer, batch_size)] of the handle-based backend: returns a
    fresh completion handle. *)
Definition dma_start (ip : dma) (b : option buffer) (batch : Z) : M nat :=
  buf <- the_buffer b ;;
  h <- get_hw ;;
  modify_hw (set_next_handle (S (next_handle h))) ;;
  emit (DmaStart ip (device_address buf) batch) ;;
  ret (next_handle h).

(** A DMA write into a buffer of fixed size: a prefix is overwritten. *)
Definition dma_write (src dst : list Z) : list Z :=
  firstn (length dst) src ++ skipn (length src) dst.

(** The effect of the completed output transfer: the output device buffer
    holds what the accelerator computed from the input device buffer.  The
    model makes it visible when the driver observes completion. *)
Definition output_transfer_done : M unit :=
  o <- get_self ;;
  h <- get_hw ;;
  match ibuf_packed_device o, obuf_packed_device o with
  | Some ib, Some ob =>
      modify_self (set_obuf_packed_device
        (Some (Buffer (device_address ob) (buf_shape ob)
                      (dma_write (accel h (buf_data ib)) (buf_data ob))
                      (cacheable ob))))
  | _, _ => ret tt
  end.

(** ** The driver: [FINNExampleOverlay] *)

(** [ret = list(t); ret[0] = batch_size; tuple(ret)]. *)
Definition with_batch (bs : Z) (t : list Z) : exn + list Z :=
  match t with
  | [] => inl (IndexError "list assignment index out of range")
  | _ :: r => inr (bs :: r)
  end.

Definition idt : M datatype :=
  o <- get_self ;; ret (io_idt (_io_shape_dict o)).

Definition odt : M datatype :=
  o <- get_self ;; ret (io_odt (_io_shape_dict o)).

Definition batch_size : M Z :=
  o <- get_self ;; ret (_batch_size o).

Definition ishape_normal : M (list Z) :=
  o <- get_self ;; bs <- batch_size ;;
  lift (with_batch bs (io_ishape_normal (_io_shape_dict o))).

Definition oshape_normal : M (list Z) :=
  o <- get_self ;; bs <- batch_size ;;
  lift (with_batch bs (io_oshape_normal (_io_shape_dict o))).

Definition ishape_folded : M (list Z) :=
  o <- get_self ;; bs <- batch_size ;;
  lift (with_batch bs (io_ishape_folded (_io_shape_dict o))).

Definition oshape_folded : M (list Z) :=
  o <- get_self ;; bs <- batch_size ;;
  lift (with_batch bs (io_oshape_folded (_io_shape_dict o))).

Definition ishape_packed : M (list Z) :=
  o <- get_self ;; bs <- batch_size ;;
  lift (with_batch bs (io_ishape_packed (_io_shape_dict o))).

Definition oshape_packed : M (list Z) :=
  o <- get_self ;; bs <- batch_size ;;
  lift (with_batch bs (io_oshape_packed (_io_shape_dict o))).

(** The [batch_size] setter. *)
Definition set_batch_size (value : Z) : M unit :=
  emit (Call m_batch_size_setter) ;;
  modify_self (set__batch_size value) ;;
  o <- get_self ;;
  match ibuf_packed_device o with
  | Some b => modify_self (set_ibuf_packed_device None) ;;
              emit (DropRef (device_address b))
  | None => ret tt
  end ;;
  match obuf_packed_device o with
  | Some b => modify_self (set_obuf_packed_device None) ;;
              emit (DropRef (device_address b))
  | None => ret tt
  end ;;
  (if (platform o =? "alveo")%string then
     si <- ishape_packed ;;
     ib <- allocate si None ;;
     modify_self (set_ibuf_packed_device (Some ib)) ;;
     so <- oshape_packed ;;
     ob <- allocate so None ;;
     modify_self (set_obuf_packed_device (Some ob))
   else
     si <- ishape_packed ;;
     ib <- allocate si (Some true) ;;
     modify_self (set_ibuf_packed_device (Some ib)) ;;
     so <- oshape_packed ;;
     ob <- allocate so (Some true) ;;
     modify_self (set_obuf_packed_device (Some ob))) ;;
  o' <- get_self ;;
  (* np.empty_like of the buffer just assigned; contents unspecified *)
  ob <- the_buffer (obuf_packed_device o') ;;
  modify_self (set_obuf_packed
    (Some (NdArray (buf_shape ob)
                   (repeat 0 (Z.to_nat (prod_shape (buf_shape ob))))))).

Definition fold_input (ibuf_normal : ndarray) : M ndarray :=
  emit (Call m_fold_input) ;;
  expected <- ishape_normal ;;
  assert_ (ints_eqb (shape ibuf_normal) expected) "" ;;
  folded <- ishape_folded ;;
  lift (reshape ibuf_normal folded).

Definition pack_input (ibuf_folded : ndarray) : M ndarray :=
  emit (Call m_pack_input) ;;
  dt <- idt ;;
  lift (finnpy_to_packed_bytearray ibuf_folded dt true true true).

Definition unpack_output (obuf_packed : ndarray) : M ndarray :=
  emit (Call m_unpack_output) ;;
  dt <- odt ;;
  target <- oshape_folded ;;
  lift (packed_bytearray_to_finnpy obuf_packed dt target true true true).

Definition unfold_output (obuf_folded : ndarray) : M ndarray :=
  emit (Call m_unfold_output) ;;
  normal <- oshape_normal ;;
  lift (reshape obuf_folded normal).

(** [np.copyto(self.ibuf_packed_device, data)] then [flush()]. *)
Definition copy_input_data_to_device (src : ndarray) : M unit :=
  emit (Call m_copy_input_data_to_device) ;;
  o <- get_self ;;
  match ibuf_packed_device o with
  | None => raise (TypeError "copyto: destination is None")
  | Some b =>
      bytes <- lift (copyto (buf_shape b) src) ;;
      modify_self (set_ibuf_packed_device
        (Some (Buffer (device_address b) (buf_shape b) bytes
                      (cacheable b)))) ;;
      emit (Flush (device_address b))
  end.

(** [self.obuf_packed_device.invalidate()] then
    [np.copyto(data, self.obuf_packed_device)].  Every caller passes
    [self.obuf_packed] as [data]; the copy mutates that array in place, so
    the model writes the attribute. *)
Definition copy_output_data_from_device : M unit :=
  emit (Call m_copy_output_data_from_device) ;;
  o <- get_self ;;
  b <- the_buffer (obuf_packed_device o) ;;
  emit (Invalidate (device_address b)) ;;
  match obuf_packed o with
  | None => raise (TypeError "copyto: destination is None")
  | Some dst =>
      bytes <- lift (copyto (shape dst) (NdArray (buf_shape b) (buf_data b))) ;;
      modify_self (set_obuf_packed (Some (NdArray (shape dst) bytes)))
  end.

(** The polling loop of [wait_until_finished]:
    [while status & 0x2 == 0: status = self.odma.read(0x00)].
    [pending] is the number of values left in the status sequence; every
    iteration consumes one, so the loop stalls only when the sequence ends
    with the done bit never seen. *)
Fixpoint wait_loop (pending : nat) (status : Z) : M unit :=
  if Z.land status 0x2 =? 0 then
    match pending with
    | O => stall
    | S pending' => status' <- odma_read 0x00 ;; wait_loop pending' status'
    end
  else ret tt.

Definition wait_until_finished : M unit :=
  emit (Call m_wait_until_finished) ;;
  o <- get_self ;;
  if (platform o =? "zynq-iodma")%string then
    status <- odma_read 0x00 ;;
    h <- get_hw ;;
    wait_loop (length (odma_status h)) status ;;
    output_transfer_done
  else if (platform o =? "alveo")%string then
    match odma_handle o with
    | None => raise (AssertionError "No odma_handle to wait on")
    | Some handle =>
        emit (HandleWait handle) ;;
        output_transfer_done ;;
        modify_self (set_odma_handle None)
    end
  else raise (Exception ("Unrecognized platform: " ++ platform o)%string).

Definition execute_on_buffers (asynch : bool) (batch_size : option Z) : M unit :=
  emit (Call m_execute_on_buffers) ;;
  o <- get_self ;;
  let batch_size :=
    match batch_size with
    | None => _batch_size o
    | Some n => n
    end in
  assert_ (batch_size <=? _batch_size o) "Specified batch_size is too large." ;;
  (if (platform o =? "zynq-iodma")%string then
     status <- odma_read 0x00 ;;
     assert_ (negb (Z.land status 0x4 =? 0)) "Output DMA is not idle" ;;
     ib <- the_buffer (ibuf_packed_device o) ;;
     reg_write IDMA 0x10 (device_address ib) ;;
     reg_write IDMA 0x1C batch_size ;;
     ob <- the_buffer (obuf_packed_device o) ;;
     reg_write ODMA 0x10 (device_address ob) ;;
     reg_write ODMA 0x1C batch_size ;;
     reg_write IDMA 0x00 1 ;;
     reg_write ODMA 0x00 1
   else if (platform o =? "alveo")%string then
     assert_ (match odma_handle o with None => true | Some _ => false end)
             "Output DMA is already running" ;;
     dma_start IDMA (ibuf_packed_device o) batch_size ;;
     handle <- dma_start ODMA (obuf_packed_device o) batch_size ;;
     modify_self (set_odma_handle (Some handle))
   else raise (Exception ("Unrecognized platform: " ++ platform o)%string)) ;;
  if Bool.eqb asynch false then wait_until_finished else ret tt.

Definition execute (input_npy : ndarray) : M ndarray :=
  emit (Call m_execute) ;;
  ibuf_folded <- fold_input input_npy ;;
  ibuf_packed <- pack_input ibuf_folded ;;
  copy_input_data_to_device ibuf_packed ;;
  execute_on_buffers false None ;;
  copy_output_data_from_device ;;
  o <- get_self ;;
  match obuf_packed o with
  | None => raise (TypeError "obuf_packed is None")
  | Some packed =>
      obuf_folded <- unpack_output packed ;;
      unfold_output obuf_folded
  end.

(** The loop of [load_runtime_weights] over [rt_weight_dict]: write the
    words of every layer that has an [s_axilite] interface and, if asked,
    read them back and compare. *)
Fixpoint write_layers (verify : bool) (rt_weight_dict : list (Z * list Z))
    : M unit :=
  match rt_weight_dict with
  | [] => ret tt
  | (layer_ind, layer_w) :: rest =>
      h <- get_hw ;;
      (if existsb (Z.eqb layer_ind) (ip_dict h) then
         emit (WriteMM layer_ind layer_w) ;;
         if verify then
           assert_ (ints_eqb layer_w (mmio_readback h layer_ind layer_w)) ""
         else ret tt
       else ret tt) ;;
      write_layers verify rest
  end.

(** [load_runtime_weights]; the reading and parsing of the weight files is
    taken from the environment ([weight_files]). *)
Definition load_runtime_weights (flush_accel verify : bool) : M unit :=
  emit (Call m_load_runtime_weights) ;;
  h <- get_hw ;;
  match weight_files h with
  | None => ret tt
  | Some rt_weight_dict =>
      write_layers verify rt_weight_dict ;;
      if flush_accel then execute_on_buffers false None else ret tt
  end.

(** The constructor [__init__], run on a board; the attributes are those of
    the object under construction. *)
Definition init (bitfile_name platform_ : string) (dict : io_shape_dict)
    (batch_size_ : Z) (fclk : Q) (download : bool) (weight_dir : string)
    : board -> outcome unit :=
  fun b =>
    (emit (Call m_init) ;;
     emit (LoadBitfile bitfile_name download) ;;
     set_batch_size batch_size_ ;;
     (if (platform_ =? "alveo")%string then
        modify_self (set_odma_handle None)
      else if (platform_ =? "zynq-iodma")%string then
        if negb (Qle_bool fclk 0%Q) then emit (SetFclk fclk) else ret tt
      else raise (ValueError "Supported platforms are zynq-iodma alveo")) ;;
     load_runtime_weights true true)
    (State (Overlay weight_dir dict None None None platform_ batch_size_ fclk
                    None)
           b []).

(** ** Observing a run *)

(** The methods entered during a piece of trace, in order. *)
Definition calls (t : list event) : list method :=
  flat_map (fun e => match e with Call m => [m] | _ => [] end) t.

(** [s'] continues the trace of [s], and what it adds enters exactly the
    methods [ms], in that order. *)
Definition extends (s s' : state) (ms : list method) : Prop :=
  exists t, trace s' = trace s ++ t /\ calls t = ms.

(** The configuration a stage leaves untouched. *)
Definition same_config (s s' : state) : Prop :=
  _batch_size (self s') = _batch_size (self s) /\
  _io_shape_dict (self s') = _io_shape_dict (self s) /\
  platform (self s') = platform (self s).

(** ** A session ready to execute *)

(** The shape of the packed buffer of a folded shape: the innermost
    dimension becomes the number of bytes of a word. *)
Definition packed_shape (dt : datatype) (folded : list Z) : option (list Z) :=
  match split_inner folded with
  | Some (outer, g) =>
      Some (outer ++ [Z.of_nat (nbytes (bitwidth dt) (Z.to_nat g))])
  | None => None
  end.

(** The engine accepts a launch and the transfer will be seen to complete:
    on the register-polled backend the status register reads idle, then
    busy for a while, then done; on the handle-based backend no handle is
    outstanding. *)
Definition engine_ready (s : state) : Prop :=
  (platform (self s) = "zynq-iodma" /\
   exists idle pre d post,
     odma_status (hw s) = idle :: pre ++ d :: post /\
     Z.land idle 0x4 <> 0 /\
     Forall (fun v => Z.land v 0x2 = 0) pre /\
     Z.land d 0x2 <> 0) \/
  (platform (self s) = "alveo" /\ odma_handle (self s) = None).

(** The events of a blocking launch that goes through, from the entry of
    [execute_on_buffers] to the return of [wait_until_finished], for the
    device buffers [ib] and [ob]: on the register-polled backend the idle
    check, the six register writes and the status reads up to and including
    the first value with the done bit; on the handle-based backend the two
    transfer starts and the wait on the handle of the output transfer. *)
Definition launch_and_wait (s : state) (ib ob : buffer) (t : list event)
    : Prop :=
  let n := _batch_size (self s) in
  (platform (self s) = "zynq-iodma" /\
   exists idle pre d post,
     odma_status (hw s) = idle :: pre ++ d :: post /\
     Forall (fun v => Z.land v 0x2 = 0) pre /\
     Z.land d 0x2 <> 0 /\
     t = [Call m_execute_on_buffers; RegRead ODMA 0x00 idle;
          RegWrite IDMA 0x10 (device_address ib); RegWrite IDMA 0x1C n;
          RegWrite ODMA 0x10 (device_address ob); RegWrite ODMA 0x1C n;
          RegWrite IDMA 0x00 1; RegWrite ODMA 0x00 1;
          Call m_wait_until_finished]
         ++ map (RegRead ODMA 0x00) (pre ++ [d])) \/
  (platform (self s) = "alveo" /\
   t = [Call m_execute_on_buffers;
        DmaStart IDMA (device_address ib) n;
        DmaStart ODMA (device_address ob) n;
        Call m_wait_until_finished;
        HandleWait (S (next_handle (hw s)))]).

(** The session can take the input [x]: [x] has the expected normal shape
    and representable elements; the views of the input and of the output
    have equal element counts and match the allocated buffers; the engine is
    ready. *)
Record session_ready (s : state) (x : ndarray) : Prop := {
  ready_input_shape : ishape_normal s = Ok (shape x) s;
  ready_input_values :
    Forall (fun v => representable (io_idt (_io_shape_dict (self s))) v = true)
           (data x);
  ready_input_views :
    exists folded ib,
      ishape_folded s = Ok folded s /\
      Forall (fun d => 0 <= d) folded /\
      prod_shape folded = prod_shape (shape x) /\
      ibuf_packed_device (self s) = Some ib /\
      packed_shape (io_idt (_io_shape_dict (self s))) folded
        = Some (buf_shape ib);
  ready_output_views :
    exists folded normal ob host,
      oshape_folded s = Ok folded s /\
      oshape_normal s = Ok normal s /\
      Forall (fun d => 0 <= d) normal /\
      prod_shape normal = prod_shape folded /\
      obuf_packed_device (self s) = Some ob /\
      obuf_packed (self s) = Some host /\
      shape host = buf_shape ob /\
      packed_shape (io_odt (_io_shape_dict (self s))) folded
        = Some (buf_shape ob);
  ready_engine : engine_ready s
}.

(** The reference the setter drops when an attribute holds a buffer. *)
Definition drop_events (b : option buffer) : list event :=
  match b with
  | Some buf => [DropRef (device_address buf)]
  | None => []
  end.

(** The [cacheable] keyword the setter passes to [allocate]. *)
Definition cacheable_for (platform_ : string) : option bool :=
  if (platform_ =? "alveo")%string then None else Some true.

(** ** Example sessions *)

(** A 4-bit unsigned accelerator: 8 values per sample, folded as 2 words of
    4 values, packed in 2 bytes per word. *)
Definition dict4 : io_shape_dict :=
  IoShapeDict (DataType 4 false) (DataType 4 false)
              [1; 8] [1; 8] [1; 2; 4] [1; 2; 4] [1; 2; 2] [1; 2; 2].

(** A board without runtime weights whose accelerator copies its input, with
    the given sequence of status-register values. *)
Definition ideal_board (status : list Z) : board :=
  Board status (fun bytes => bytes) 4096 0 [] None (fun _ words => words).

(** The state a call leaves, whatever its outcome. *)
Definition final_state {A : Type} (r : outcome A) : state :=
  match r with
  | Ok _ s => s
  | Raise _ s => s
  | Stalled s => s
  end.

(** The sessions constructed on [ideal_board] for [dict4] with batch size 1,
    on the register-polled and on the handle-based backend. *)
Definition zynq_session : list Z -> state :=
  Eval vm_compute in
    fun status =>
      final_state (init "finn.bit" "zynq-iodma" dict4 1 (100 # 1) true
                        "runtime_weights/" (ideal_board status)).

Definition alveo_session : state :=
  Eval vm_compute in
    final_state (init "finn.bit" "alveo" dict4 1 (100 # 1) true
                      "runtime_weights/" (ideal_board [])).

(** The handle-based session after a non-blocking launch. *)
Definition alveo_launched : state :=
  Eval vm_compute in
    final_state (execute_on_buffers true None alveo_session).

(** A descriptor whose input views disagree: 8 elements in the normal view,
    12 in the folded view. *)
Definition dict_inconsistent : io_shape_dict :=
  IoShapeDict (DataType 4 false) (DataType 4 false)
              [1; 8] [1; 8] [1; 3; 4] [1; 2; 4] [1; 2; 2] [1; 2; 2].

(** A descriptor whose output views disagree: 9 elements in the normal
    view, 8 in the folded view. *)
Definition dict_inconsistent_output : io_shape_dict :=
  IoShapeDict (DataType 4 false) (DataType 4 false)
              [1; 8] [1; 9] [1; 2; 4] [1; 2; 4] [1; 2; 2] [1; 2; 2].

(** A descriptor whose packed input view is not the packing of the folded
    one: 4 words of 2 bytes, where the 2 words of the folded view pack to 2
    words of 2 bytes. *)
Definition dict_inconsistent_packed : io_shape_dict :=
  IoShapeDict (DataType 4 false) (DataType 4 false)
              [1; 8] [1; 8] [1; 2; 4] [1; 2; 4] [1; 4; 2] [1; 2; 2].

(** ** Invariants and situations of a session *)

(** The device buffers and the host staging buffer exist and have the
    shapes the packed-shape properties announce for the current batch
    size. *)
Definition buffers_match (s : state) : Prop :=
  exists ib ob host,
    ibuf_packed_device (self s) = Some ib /\
    obuf_packed_device (self s) = Some ob /\
    obuf_packed (self s) = Some host /\
    ishape_packed s = Ok (buf_shape ib) s /\
    oshape_packed s = Ok (buf_shape ob) s /\
    shape host = buf_shape ob.

(** A buffer attribute still refers to a buffer at the same device address
    and of the same shape. *)
Definition same_buffer (before after : option buffer) : Prop :=
  forall b, before = Some b ->
    exists b', after = Some b' /\
               device_address b' = device_address b /\
               buf_shape b' = buf_shape b.

(** The three views of one direction agree for batch size [n]: the normal
    and the folded view have the same number of elements and the packed view
    is the packing of the folded one. *)
Definition consistent_view (n : Z) (dt : datatype)
    (normal folded packed : list Z) : Prop :=
  exists nv fv pv,
    with_batch n normal = inr nv /\
    with_batch n folded = inr fv /\
    with_batch n packed = inr pv /\
    Forall (fun d => 0 <= d) nv /\
    Forall (fun d => 0 <= d) fv /\
    prod_shape nv = prod_shape fv /\
    packed_shape dt fv = Some pv.

(** The engine refuses a launch, with the message of the assertion that
    fails: the status register does not read idle (register-polled), or a
    handle is outstanding (handle-based). *)
Definition engine_busy (s : state) (msg : string) : Prop :=
  (platform (self s) = "zynq-iodma" /\
   msg = "Output DMA is not idle" /\
   exists v rest, odma_status (hw s) = v :: rest /\ Z.land v 0x4 = 0) \/
  (platform (self s) = "alveo" /\
   msg = "Output DMA is already running" /\
   exists h, odma_handle (self s) = Some h).

(** Whether layer [layer_ind] has an [s_axilite] interface in [ip_dict]. *)
Definition has_interface (h : board) (entry : Z * list Z) : bool :=
  existsb (Z.eqb (fst entry)) (ip_dict h).

(** The [write_mm] calls for the entries of [rt_weight_dict] that have an
    interface, in the order of the dictionary. *)
Definition weight_writes (h : board) (rt_weight_dict : list (Z * list Z))
    : list event :=
  map (fun entry => WriteMM (fst entry) (snd entry))
      (filter (has_interface h) rt_weight_dict).

(** The words read back from a layer are the words written to it. *)
Definition reads_back (h : board) (entry : Z * list Z) : Prop :=
  mmio_readback h (fst entry) (snd entry) = snd entry.

(** A board with runtime weights for layers 0, 1 and 2, of which only
    layers 0 and 2 have an interface; layer 2 reads back a wrong word. *)
Definition weights_board (status : list Z) : board :=
  Board status (fun bytes => bytes) 4096 0 [0; 2]
        (Some [(0, [1; 2]); (1, [3]); (2, [4; 5])])
        (fun layer words => if layer =? 2 then [4; 0] else words).

(** * Lemmas and theorems *)

(** ** Lists, shapes and chunks *)

Lemma ints_eqb_eq (s t : list Z) : ints_eqb s t = true <-> s = t.
Proof.
  revert t; induction s as [|a s IH]; intros [|b t]; simpl.
  - split; reflexivity.
  - split; discriminate.
  - split; discriminate.
  - rewrite andb_true_iff, Z.eqb_eq, IH. split.
    + intros [-> ->]; reflexivity.
    + intros [= -> ->]; split; reflexivity.
Qed.

Lemma ints_eqb_refl (s : list Z) : ints_eqb s s = true.
Proof. apply ints_eqb_eq; reflexivity. Qed.

Lemma ints_eqb_neq (s t : list Z) : s <> t -> ints_eqb s t = false.
Proof.
  intros H. destruct (ints_eqb s t) eqn:E; [|reflexivity].
  apply ints_eqb_eq in E. contradiction.
Qed.

Lemma prod_shape_app (s t : list Z) :
  prod_shape (s ++ t) = prod_shape s * prod_shape t.
Proof.
  induction s as [|a s IH]; simpl.
  - destruct (prod_shape t); reflexivity.
  - rewrite IH. ring.
Qed.

Lemma prod_shape_nonneg (s : list Z) :
  Forall (fun d => 0 <= d) s -> 0 <= prod_shape s.
Proof.
  induction 1 as [|a s Ha _ IH]; simpl; [lia | apply Z.mul_nonneg_nonneg; assumption].
Qed.

Lemma forallb_nonneg (s : list Z) :
  forallb (fun d => 0 <=? d) s = true <-> Forall (fun d => 0 <= d) s.
Proof.
  rewrite forallb_forall, Forall_forall.
  split; intros H d Hd; specialize (H d Hd); lia.
Qed.

Lemma split_inner_app (outer : list Z) (g : Z) :
  split_inner (outer ++ [g]) = Some (outer, g).
Proof.
  unfold split_inner. rewrite rev_app_distr. simpl.
  rewrite rev_involutive. reflexivity.
Qed.

Lemma split_inner_cons (a : Z) (s : list Z) :
  exists outer g, a :: s = outer ++ [g].
Proof.
  destruct (@exists_last _ (a :: s)) as (outer & g & E); [discriminate|].
  exists outer, g. exact E.
Qed.

Lemma chunks_length {A : Type} (k n : nat) (l : list A) :
  length (chunks k n l) = k.
Proof.
  revert l; induction k as [|k IH]; intros l; simpl; [|rewrite IH]; reflexivity.
Qed.

Lemma chunks_flat_map {A B : Type} (f : A -> list B) (n : nat) (xs : list A)
    (extra : list B) :
  Forall (fun x => length (f x) = n) xs ->
  chunks (length xs) n (flat_map f xs ++ extra) = map f xs.
Proof.
  induction 1 as [|x xs Hx _ IH]; simpl; [reflexivity|].
  rewrite <- app_assoc.
  rewrite firstn_app, skipn_app, Hx, Nat.sub_diag.
  rewrite firstn_all2 by lia. rewrite skipn_all2 by lia. simpl.
  rewrite app_nil_r, IH. reflexivity.
Qed.

Lemma concat_chunks {A : Type} (k n : nat) (l : list A) :
  length l = (k * n)%nat -> concat (chunks k n l) = l.
Proof.
  revert l; induction k as [|k IH]; intros l Hl; simpl in *.
  - destruct l; [reflexivity | discriminate].
  - rewrite IH; [apply firstn_skipn|].
    rewrite length_skipn. lia.
Qed.

Lemma chunks_all_length {A : Type} (k n : nat) (l : list A) :
  length l = (k * n)%nat ->
  Forall (fun c => length c = n) (chunks k n l).
Proof.
  revert l; induction k as [|k IH]; intros l Hl; simpl in *; constructor.
  - rewrite length_firstn. lia.
  - apply IH. rewrite length_skipn. lia.
Qed.

Lemma Forall_firstn_skipn {A : Type} (P : A -> Prop) (n : nat) (l : list A) :
  Forall P l -> Forall P (firstn n l) /\ Forall P (skipn n l).
Proof.
  intros H. rewrite <- (firstn_skipn n l) in H.
  apply Forall_app in H. exact H.
Qed.

Lemma chunks_Forall {A : Type} (P : A -> Prop) (k n : nat) (l : list A) :
  Forall P l -> Forall (Forall P) (chunks k n l).
Proof.
  revert l; induction k as [|k IH]; intros l Hl; simpl; constructor.
  - apply Forall_firstn_skipn; assumption.
  - apply IH. apply Forall_firstn_skipn; assumption.
Qed.

Lemma flat_map_const_length {A B : Type} (f : A -> list B) (n : nat)
    (xs : list A) :
  Forall (fun x => length (f x) = n) xs ->
  length (flat_map f xs) = (length xs * n)%nat.
Proof.
  induction 1 as [|x xs Hx _ IH]; simpl; [reflexivity|].
  rewrite length_app, Hx, IH. reflexivity.
Qed.

Lemma flat_map_id_on {A : Type} (f : list A -> list A) (ws : list (list A)) :
  Forall (fun w => f w = w) ws -> flat_map f ws = concat ws.
Proof.
  induction 1 as [|w ws Hw _ IH]; simpl; [reflexivity|].
  rewrite Hw, IH. reflexivity.
Qed.

(** A tuple without a negative entry is reshaped to as it stands. *)
Lemma resolve_shape_nonneg (size : Z) (s : list Z) :
  Forall (fun d => 0 <= d) s ->
  resolve_shape size s =
  if prod_shape s =? size then inr s
  else inl (ValueError "cannot reshape array").
Proof.
  intros H. unfold resolve_shape.
  assert (Hs : filter (fun d => d <? 0) s = [] /\
               filter (fun d => 0 <=? d) s = s).
  { induction H as [|d s Hd _ [IHneg IHpos]]; [split; reflexivity|].
    cbn [filter].
    replace (d <? 0) with false by (symmetry; apply Z.ltb_ge; exact Hd).
    replace (0 <=? d) with true by (symmetry; apply Z.leb_le; exact Hd).
    rewrite IHpos. split; [exact IHneg | reflexivity]. }
  destruct Hs as [Hneg Hpos]. rewrite Hneg, Hpos. reflexivity.
Qed.

Lemma reshape_nonneg (x : ndarray) (s : list Z) :
  Forall (fun d => 0 <= d) s ->
  prod_shape s = prod_shape (shape x) ->
  reshape x s = inr (NdArray s (data x)).
Proof.
  intros H P. unfold reshape. rewrite (resolve_shape_nonneg _ _ H), P.
  rewrite Z.eqb_refl. reflexivity.
Qed.

(** Between equal shapes [np.copyto] copies element for element. *)
Lemma copyto_same (dst_shape : list Z) (src : ndarray) :
  shape src = dst_shape -> copyto dst_shape src = inr (data src).
Proof. intros <-. unfold copyto. rewrite ints_eqb_refl. reflexivity. Qed.

(** Broadcasting a well-formed source to its own shape changes nothing, so
    the two cases of [copyto] agree where they meet. *)
Lemma broadcast_data_same (s : list Z) :
  Forall (fun d => 0 <= d) s ->
  forall l,
    length l = Z.to_nat (prod_shape s) ->
    broadcastable s s = true /\ broadcast_data s s l = l.
Proof.
  induction 1 as [|d s Hd Hs IH]; intros l Hl; [split; reflexivity|].
  cbn [broadcastable broadcast_data]. rewrite Z.eqb_refl, orb_true_r.
  pose proof (prod_shape_nonneg s Hs) as Hp.
  cbn [prod_shape fold_right] in Hl. fold (prod_shape s) in Hl.
  split; [exact (proj1 (IH (repeat 0 (Z.to_nat (prod_shape s)))
                           (repeat_length _ _)))|].
  destruct (d =? 1) eqn:E1.
  - apply Z.eqb_eq in E1. subst d. rewrite Z.mul_1_l in Hl.
    change (Z.to_nat 1) with 1%nat. cbn [repeat concat].
    rewrite app_nil_r. exact (proj2 (IH l Hl)).
  - rewrite Z2Nat.inj_mul in Hl by assumption.
    rewrite flat_map_id_on; [apply concat_chunks; exact Hl|].
    eapply Forall_impl; [|apply chunks_all_length; exact Hl].
    cbv beta. intros c Hc. exact (proj2 (IH c Hc)).
Qed.

(** ** Bit fields *)

Lemma bits_of_length (w : nat) (v : Z) : length (bits_of w v) = w.
Proof. induction w as [|w IH]; simpl; [|rewrite IH]; reflexivity. Qed.

Lemma value_of_bits_range (bs : list bool) :
  0 <= value_of_bits bs < 2 ^ Z.of_nat (length bs).
Proof.
  induction bs as [|b r IH]; simpl value_of_bits; simpl length.
  - simpl. lia.
  - rewrite Nat2Z.inj_succ, Z.pow_succ_r by lia.
    destruct b; simpl Z.b2z; lia.
Qed.

Lemma mod_pow2_succ (v : Z) (w : nat) :
  v mod 2 ^ Z.of_nat (S w) =
  Z.b2z (Z.testbit v (Z.of_nat w)) * 2 ^ Z.of_nat w + v mod 2 ^ Z.of_nat w.
Proof.
  rewrite Nat2Z.inj_succ, Z.pow_succ_r by lia.
  rewrite Z.testbit_spec' by lia.
  rewrite (Z.mul_comm 2), Z.rem_mul_r by lia. lia.
Qed.

Lemma value_of_bits_of (w : nat) (v : Z) :
  value_of_bits (bits_of w v) = v mod 2 ^ Z.of_nat w.
Proof.
  induction w as [|w IH].
  - simpl. rewrite Z.mod_1_r. reflexivity.
  - cbn [bits_of value_of_bits].
    rewrite bits_of_length, IH, mod_pow2_succ. reflexivity.
Qed.

Lemma bits_of_ext (w : nat) (a b : Z) :
  (forall i, 0 <= i < Z.of_nat w -> Z.testbit a i = Z.testbit b i) ->
  bits_of w a = bits_of w b.
Proof.
  induction w as [|w IH]; intros H; cbn [bits_of]; [reflexivity|].
  rewrite H by lia. rewrite IH; [reflexivity|].
  intros i Hi. apply H. lia.
Qed.

Lemma bits_of_add_high (w : nat) (k x : Z) :
  bits_of w (k * 2 ^ Z.of_nat w + x) = bits_of w x.
Proof.
  apply bits_of_ext. intros i Hi.
  rewrite <- (Z.mod_pow2_bits_low (k * 2 ^ Z.of_nat w + x) (Z.of_nat w) i) by lia.
  rewrite <- (Z.mod_pow2_bits_low x (Z.of_nat w) i) by lia.
  rewrite Z.add_comm, Z_mod_plus_full. reflexivity.
Qed.

Lemma testbit_top (b : bool) (n x : Z) :
  0 <= n -> 0 <= x < 2 ^ n -> Z.testbit (Z.b2z b * 2 ^ n + x) n = b.
Proof.
  intros Hn Hx.
  assert (E : Z.b2z (Z.testbit (Z.b2z b * 2 ^ n + x) n) = Z.b2z b).
  { rewrite Z.testbit_spec' by lia.
    rewrite Z.add_comm, Z.div_add by lia.
    rewrite Z.div_small by lia. destruct b; reflexivity. }
  destruct b, (Z.testbit (Z.b2z true * 2 ^ n + x) n) eqn:?,
    (Z.testbit (Z.b2z false * 2 ^ n + x) n) eqn:?; simpl in *; congruence.
Qed.

Lemma bits_of_value (bs : list bool) :
  bits_of (length bs) (value_of_bits bs) = bs.
Proof.
  induction bs as [|b r IH]; [reflexivity|].
  cbn [length bits_of value_of_bits].
  rewrite testbit_top by (try lia; apply value_of_bits_range).
  rewrite bits_of_add_high, IH. reflexivity.
Qed.

Lemma bits_of_bytes (cs : list (list bool)) :
  Forall (fun c => length c = 8%nat) cs ->
  flat_map (bits_of 8) (map value_of_bits cs) = concat cs.
Proof.
  induction 1 as [|c cs Hc _ IH]; [reflexivity|].
  cbn [map flat_map concat]. rewrite IH, <- Hc, bits_of_value. reflexivity.
Qed.

Lemma sign_extend_mod (dt : datatype) (v : Z) :
  representable dt v = true ->
  sign_extend dt (v mod 2 ^ Z.of_nat (bitwidth dt)) = v.
Proof.
  unfold representable, sign_extend.
  destruct (signed dt); cbn [andb]; intros H;
    apply andb_true_iff in H; destruct H as [Hlo Hhi].
  - destruct (bitwidth dt) as [|w].
    + simpl in *. lia.
    + replace (Z.of_nat (S w) - 1) with (Z.of_nat w) in * by lia.
      assert (Hp : 0 < 2 ^ Z.of_nat w) by (apply Z.pow_pos_nonneg; lia).
      assert (E2 : 2 ^ Z.of_nat (S w) = 2 * 2 ^ Z.of_nat w)
        by (rewrite Nat2Z.inj_succ, Z.pow_succ_r by lia; reflexivity).
      destruct (Z.ltb_spec v 0) as [Hneg|Hpos].
      * replace (v mod 2 ^ Z.of_nat (S w))
          with (Z.b2z true * 2 ^ Z.of_nat w + (v + 2 ^ Z.of_nat w)).
        2:{ apply Z.mod_unique with (q := -1); simpl Z.b2z; lia. }
        rewrite testbit_top by lia. simpl Z.b2z. lia.
      * replace (v mod 2 ^ Z.of_nat (S w))
          with (Z.b2z false * 2 ^ Z.of_nat w + v).
        2:{ symmetry. simpl Z.b2z. rewrite Z.mod_small; lia. }
        rewrite testbit_top by lia. simpl Z.b2z. lia.
  - apply Z.mod_small. lia.
Qed.

(** ** Words *)

Lemma nbytes_covers (w g : nat) : (w * g <= 8 * nbytes w g)%nat.
Proof.
  unfold nbytes.
  pose proof (Nat.div_mod_eq (w * g + 7) 8).
  pose proof (Nat.mod_upper_bound (w * g + 7) 8). lia.
Qed.

Lemma pack_word_length (dt : datatype) (re ri : bool) (es : list Z) :
  length (pack_word dt re ri es) = nbytes (bitwidth dt) (length es).
Proof.
  unfold pack_word. destruct re; rewrite ?length_rev, length_map, chunks_length;
    reflexivity.
Qed.

Lemma unpack_pack_word (dt : datatype) (re ri : bool) (es : list Z) :
  Forall (fun v => representable dt v = true) es ->
  unpack_word dt re ri (length es) (pack_word dt re ri es) = es.
Proof.
  intros Hrep. unfold unpack_word, pack_word.
  set (w := bitwidth dt).
  set (es' := if ri then rev es else es).
  set (nb := nbytes w (length es)).
  assert (Hlen' : length es' = length es)
    by (subst es'; destruct ri; [apply length_rev | reflexivity]).
  assert (Hrep' : Forall (fun v => representable dt v = true) es').
  { subst es'. destruct ri; [|assumption].
    rewrite Forall_forall in *. intros v Hv. apply Hrep, in_rev, Hv. }
  assert (Hbits : length (flat_map (bits_of w) es') = (w * length es)%nat).
  { rewrite (flat_map_const_length (bits_of w) w).
    - lia.
    - apply Forall_forall. intros; apply bits_of_length. }
  set (padded := flat_map (bits_of w) es' ++
                 repeat false (8 * nb - length (flat_map (bits_of w) es'))).
  assert (Hpad : length padded = (nb * 8)%nat).
  { subst padded. rewrite length_app, repeat_length, Hbits.
    pose proof (nbytes_covers w (length es)). subst nb. lia. }
  replace (if re then rev (if re then rev (map value_of_bits (chunks nb 8 padded))
                                 else map value_of_bits (chunks nb 8 padded))
           else (if re then rev (map value_of_bits (chunks nb 8 padded))
                 else map value_of_bits (chunks nb 8 padded)))
    with (map value_of_bits (chunks nb 8 padded))
    by (destruct re; [rewrite rev_involutive|]; reflexivity).
  rewrite bits_of_bytes by (apply chunks_all_length, Hpad).
  rewrite concat_chunks by exact Hpad.
  subst padded. rewrite <- Hlen'.
  rewrite chunks_flat_map by (apply Forall_forall; intros; apply bits_of_length).
  rewrite map_map.
  rewrite (map_ext_in _ (fun v => v)), map_id.
  - subst es'. destruct ri; [apply rev_involutive | reflexivity].
  - intros v Hv. rewrite value_of_bits_of. apply sign_extend_mod.
    rewrite Forall_forall in Hrep'. apply Hrep', Hv.
Qed.

(** ** Arrays *)

Lemma forallb_representable (dt : datatype) (l : list Z) :
  Forall (fun v => representable dt v = true) l ->
  forallb (representable dt) l = true.
Proof.
  intros H. apply forallb_forall. rewrite Forall_forall in H. exact H.
Qed.

Lemma unpack_pack_array (x : ndarray) (dt : datatype) (re ri f1 f2 : bool) :
  shape x <> [] ->
  wf_ndarray x ->
  Forall (fun v => representable dt v = true) (data x) ->
  exists p,
    finnpy_to_packed_bytearray x dt re ri f1 = inr p /\
    packed_bytearray_to_finnpy p dt (shape x) re ri f2 = inr x.
Proof.
  destruct x as [shp dat]. cbn [shape data]. intros Hne [Hdims Hlen] Hrep.
  cbn [shape data] in *.
  destruct shp as [|a s]; [contradiction|].
  destruct (split_inner_cons a s) as (outer & g & E).
  rewrite E in *. clear E Hne a s.
  unfold finnpy_to_packed_bytearray, packed_bytearray_to_finnpy.
  cbn [shape data]. rewrite split_inner_app.
  rewrite forallb_representable by assumption.
  eexists; split; [reflexivity|]. cbn [shape data].
  rewrite ints_eqb_refl.
  apply Forall_app in Hdims. destruct Hdims as [Hout Hg].
  inversion Hg as [|? ? Hg0 _]; subst.
  pose proof (prod_shape_nonneg outer Hout) as Hk.
  set (K := Z.to_nat (prod_shape outer)) in *.
  set (G := Z.to_nat g) in *.
  assert (HlenKG : length dat = (K * G)%nat).
  { rewrite Hlen, prod_shape_app. simpl prod_shape.
    rewrite Z.mul_1_r, Z2Nat.inj_mul by assumption. reflexivity. }
  pose proof (chunks_all_length K G dat HlenKG) as Hwords.
  pose proof (chunks_Forall _ K G dat Hrep) as Hwrep.
  assert (Hcount : K = length (chunks K G dat))
    by (rewrite chunks_length; reflexivity).
  rewrite <- (app_nil_r (flat_map (pack_word dt re ri) (chunks K G dat))).
  rewrite Hcount at 1.
  rewrite chunks_flat_map.
  2:{ eapply Forall_impl; [|exact Hwords].
      cbv beta. intros c Hc. rewrite pack_word_length, Hc. reflexivity. }
  rewrite flat_map_concat_map, map_map, <- flat_map_concat_map.
  rewrite flat_map_id_on.
  - rewrite concat_chunks by exact HlenKG. reflexivity.
  - rewrite Forall_forall in *. intros c Hc.
    rewrite <- (Hwords c Hc). apply unpack_pack_word.
    apply Forall_forall. exact (proj1 (Forall_forall _ _) (Hwrep c Hc)).
Qed.

(** ** The monad and the trace *)

Ltac unfold_monad :=
  cbv beta iota delta
    [bind ret raise stall lift assert_ emit get_self get_hw modify_self
     modify_hw the_buffer reg_write].

Lemma calls_app (t u : list event) : calls (t ++ u) = calls t ++ calls u.
Proof. unfold calls. apply flat_map_app. Qed.

Lemma extends_refl (s : state) : extends s s [].
Proof. exists []. split; [symmetry; apply app_nil_r | reflexivity]. Qed.

Lemma extends_trans (a b c : state) (m1 m2 : list method) :
  extends a b m1 -> extends b c m2 -> extends a c (m1 ++ m2).
Proof.
  intros (t1 & E1 & C1) (t2 & E2 & C2). exists (t1 ++ t2). split.
  - rewrite E2, E1, app_assoc. reflexivity.
  - rewrite calls_app, C1, C2. reflexivity.
Qed.

Lemma odma_read_inv (off v : Z) (s s' : state) :
  odma_read off s = Ok v s' ->
  self s' = self s /\
  odma_status (hw s) = v :: odma_status (hw s') /\
  trace s' = trace s ++ [RegRead ODMA off v].
Proof.
  unfold odma_read. unfold_monad. cbn [hw].
  destruct (odma_status (hw s)) as [|v0 rest] eqn:E; [discriminate|].
  intros [= <- <-]. cbn. auto.
Qed.

Lemma wait_loop_inv (n : nat) (status : Z) (s s' : state) :
  wait_loop n status s = Ok tt s' ->
  self s' = self s /\ extends s s' [].
Proof.
  revert status s. induction n as [|n IH]; intros status s; cbn [wait_loop].
  - destruct (Z.land status 2 =? 0); [discriminate|].
    intros [= <-]. split; [reflexivity | apply extends_refl].
  - destruct (Z.land status 2 =? 0).
    + unfold bind at 1. destruct (odma_read 0 s) as [v s1| |] eqn:E; try discriminate.
      intros H. apply IH in H. destruct H as [Hs Hx].
      apply odma_read_inv in E. destruct E as (Es & _ & Et).
      split; [congruence|].
      change [] with ([] ++ @nil method). eapply extends_trans; [|exact Hx].
      exists [RegRead ODMA 0 v]. split; [exact Et | reflexivity].
    + intros [= <-]. split; [reflexivity | apply extends_refl].
Qed.

(** ** The polling loop *)

Lemma odma_read_next (off : Z) {v : Z} {rest : list Z} {s : state} :
  odma_status (hw s) = v :: rest ->
  odma_read off s =
  Ok v (State (self s) (set_odma_status rest (hw s))
              (trace s ++ [RegRead ODMA off v])).
Proof.
  intros E. unfold odma_read. unfold_monad. cbn [hw]. rewrite E. reflexivity.
Qed.

Lemma wait_loop_done (n : nat) (status : Z) (s : state) :
  Z.land status 0x2 <> 0 -> wait_loop n status s = Ok tt s.
Proof.
  intros H. apply Z.eqb_neq in H.
  destruct n; cbn [wait_loop]; rewrite H; reflexivity.
Qed.

Lemma wait_loop_polls {pre : list Z} {d : Z} {post : list Z} :
  Forall (fun v => Z.land v 0x2 = 0) pre ->
  Z.land d 0x2 <> 0 ->
  forall (status : Z) (s : state),
    Z.land status 0x2 = 0 ->
    odma_status (hw s) = pre ++ d :: post ->
    wait_loop (length (pre ++ d :: post)) status s =
    Ok tt (State (self s) (set_odma_status post (hw s))
                 (trace s ++ map (RegRead ODMA 0x00) (pre ++ [d]))).
Proof.
  intros Hpre Hd. induction Hpre as [|v pre Hv _ IH]; intros status s Hs E.
  - cbn [app length wait_loop map]. apply Z.eqb_eq in Hs. rewrite Hs.
    unfold bind. rewrite (odma_read_next _ E).
    rewrite wait_loop_done by exact Hd. reflexivity.
  - cbn [app length wait_loop map]. apply Z.eqb_eq in Hs. rewrite Hs.
    unfold bind. rewrite (odma_read_next _ E).
    rewrite IH by (try exact Hv; reflexivity).
    cbn [self hw trace]. rewrite <- app_assoc. reflexivity.
Qed.

Lemma wait_loop_stalls {l : list Z} :
  Forall (fun v => Z.land v 0x2 = 0) l ->
  forall (status : Z) (s : state),
    Z.land status 0x2 = 0 ->
    odma_status (hw s) = l ->
    exists s', wait_loop (length l) status s = Stalled s'.
Proof.
  induction 1 as [|v l Hv _ IH]; intros status s Hs E;
    cbn [length wait_loop]; apply Z.eqb_eq in Hs; rewrite Hs.
  - eexists; reflexivity.
  - unfold bind. rewrite (odma_read_next _ E).
    apply IH; [exact Hv | reflexivity].
Qed.

Lemma wait_until_finished_zynq_returns (s : state) (pre : list Z) (d : Z)
    (post : list Z) :
  platform (self s) = "zynq-iodma" ->
  odma_status (hw s) = pre ++ d :: post ->
  Forall (fun v => Z.land v 0x2 = 0) pre ->
  Z.land d 0x2 <> 0 ->
  exists s',
    wait_until_finished s = Ok tt s' /\
    odma_status (hw s') = post /\
    trace s' = trace s ++ Call m_wait_until_finished
                           :: map (RegRead ODMA 0x00) (pre ++ [d]).
Proof.
  intros Hz E Hpre Hd.
  unfold wait_until_finished. unfold bind at 1 2. unfold emit at 1, get_self at 1.
  cbn [self hw trace]. rewrite Hz. cbn [String.eqb Ascii.eqb Bool.eqb].
  destruct pre as [|v pre].
  - cbn [app] in E. unfold bind at 1.
    rewrite (odma_read_next (s := State (self s) (hw s) (trace s ++ [Call m_wait_until_finished])) 0 E).
    unfold bind at 1 2. unfold get_hw at 1. cbn [hw odma_status set_odma_status].
    rewrite wait_loop_done by exact Hd.
    unfold output_transfer_done. unfold_monad. cbn [self hw trace].
    destruct (ibuf_packed_device (self s)), (obuf_packed_device (self s));
      eexists; (split; [reflexivity|]); cbn [self hw trace odma_status set_odma_status];
      rewrite <- app_assoc; split; reflexivity.
  - cbn [app] in E. inversion Hpre as [|? ? Hv Hpre']; subst. unfold bind at 1.
    rewrite (odma_read_next (s := State (self s) (hw s) (trace s ++ [Call m_wait_until_finished])) 0 E).
    unfold bind at 1 2. unfold get_hw at 1. cbn [hw odma_status set_odma_status].
    rewrite (wait_loop_polls (post := post) Hpre' Hd) by (try exact Hv; reflexivity).
    unfold output_transfer_done. unfold_monad. cbn [self hw trace].
    destruct (ibuf_packed_device (self s)), (obuf_packed_device (self s));
      eexists; (split; [reflexivity|]); cbn [self hw trace odma_status set_odma_status map app];
      rewrite <- !app_assoc; split; reflexivity.
Qed.

(** The wait on the register-polled backend, as an equation: the reads up
    to the first value with the done bit, then the completed transfer. *)
Lemma wait_until_finished_zynq_run (s : state) (pre : list Z) (d : Z)
    (post : list Z) :
  platform (self s) = "zynq-iodma" ->
  odma_status (hw s) = pre ++ d :: post ->
  Forall (fun v => Z.land v 0x2 = 0) pre ->
  Z.land d 0x2 <> 0 ->
  wait_until_finished s =
  output_transfer_done
    (State (self s) (set_odma_status post (hw s))
           (trace s ++ Call m_wait_until_finished
                       :: map (RegRead ODMA 0x00) (pre ++ [d]))).
Proof.
  intros Hz E Hpre Hd.
  unfold wait_until_finished. unfold bind at 1 2. unfold emit at 1, get_self at 1.
  cbn [self hw trace]. rewrite Hz. cbn [String.eqb Ascii.eqb Bool.eqb].
  destruct pre as [|v pre].
  - cbn [app] in E. unfold bind at 1.
    rewrite (odma_read_next (s := State (self s) (hw s) (trace s ++ [Call m_wait_until_finished])) 0 E).
    unfold bind at 1 2. unfold get_hw at 1. cbn [hw odma_status set_odma_status].
    rewrite wait_loop_done by exact Hd.
    cbn [self hw trace map app]. rewrite <- app_assoc. reflexivity.
  - cbn [app] in E. inversion Hpre as [|? ? Hv Hpre']; subst. unfold bind at 1.
    rewrite (odma_read_next (s := State (self s) (hw s) (trace s ++ [Call m_wait_until_finished])) 0 E).
    unfold bind at 1 2. unfold get_hw at 1. cbn [hw odma_status set_odma_status].
    rewrite (wait_loop_polls (post := post) Hpre' Hd) by (try exact Hv; reflexivity).
    cbn [self hw trace map app]. rewrite <- !app_assoc. reflexivity.
Qed.

(** C6: on the register-polled backend [wait_until_finished] reads the
    output status register again and again while the done bit (mask 0x2) is
    clear and returns at the first value that has it set, having read
    exactly the values up to and including that one; while every value of
    the sequence has the bit clear it does not return. *)
Theorem wait_until_finished_polls_done_bit (s : state) :
  platform (self s) = "zynq-iodma" ->
  (forall pre d post,
      odma_status (hw s) = pre ++ d :: post ->
      Forall (fun v => Z.land v 0x2 = 0) pre ->
      Z.land d 0x2 <> 0 ->
      exists s',
        wait_until_finished s = Ok tt s' /\
        odma_status (hw s') = post /\
        trace s' = trace s ++ Call m_wait_until_finished
                               :: map (RegRead ODMA 0x00) (pre ++ [d])) /\
  (Forall (fun v => Z.land v 0x2 = 0) (odma_status (hw s)) ->
   exists s', wait_until_finished s = Stalled s').
Proof.
  intros Hz. split.
  - intros pre d post. apply wait_until_finished_zynq_returns. exact Hz.
  - intros Hall.
    unfold wait_until_finished. unfold bind at 1 2. unfold emit at 1, get_self at 1.
    cbn [self hw trace]. rewrite Hz. cbn [String.eqb Ascii.eqb Bool.eqb].
    destruct (odma_status (hw s)) as [|v l] eqn:E.
    + unfold bind, odma_read. unfold_monad. cbn [hw]. rewrite E.
      eexists; reflexivity.
    + inversion Hall as [|? ? Hv Hl]; subst. unfold bind at 1.
      rewrite (odma_read_next
                 (s := State (self s) (hw s)
                             (trace s ++ [Call m_wait_until_finished])) 0 E).
      unfold bind at 1 2. unfold get_hw at 1. cbn [hw odma_status set_odma_status].
      match goal with
      | |- context [wait_loop ?n v ?st] =>
          change n with (length l);
          destruct (wait_loop_stalls Hl v st) as [s' Hs'];
            [exact Hv | reflexivity | rewrite Hs']
      end.
      eexists; reflexivity.
Qed.

(** ** Stepping through a run *)

Lemma bind_bind {A B C : Type} (c : M A) (k : A -> M B) (h : B -> M C)
    (s : state) :
  bind (bind c k) h s = bind c (fun a => bind (k a) h) s.
Proof. unfold bind. destruct (c s); reflexivity. Qed.

Lemma bind_ext {A B : Type} (c : M A) (k k' : A -> M B) (s : state) :
  (forall a s', k a s' = k' a s') -> bind c k s = bind c k' s.
Proof. intros H. unfold bind. destruct (c s); auto. Qed.

Lemma bind_ret {A B : Type} (a : A) (k : A -> M B) (s : state) :
  bind (ret a) k s = k a s.
Proof. reflexivity. Qed.

Lemma bind_raise {A B : Type} (e : exn) (k : A -> M B) (s : state) :
  bind (raise e) k s = Raise e s.
Proof. reflexivity. Qed.

Lemma bind_emit {B : Type} (e : event) (k : unit -> M B) (s : state) :
  bind (emit e) k s = k tt (State (self s) (hw s) (trace s ++ [e])).
Proof. reflexivity. Qed.

Lemma bind_get_self {B : Type} (k : overlay -> M B) (s : state) :
  bind get_self k s = k (self s) s.
Proof. reflexivity. Qed.

Lemma bind_get_hw {B : Type} (k : board -> M B) (s : state) :
  bind get_hw k s = k (hw s) s.
Proof. reflexivity. Qed.

Lemma bind_modify_self {B : Type} (f : overlay -> overlay) (k : unit -> M B)
    (s : state) :
  bind (modify_self f) k s = k tt (State (f (self s)) (hw s) (trace s)).
Proof. reflexivity. Qed.

Lemma bind_modify_hw {B : Type} (f : board -> board) (k : unit -> M B)
    (s : state) :
  bind (modify_hw f) k s = k tt (State (self s) (f (hw s)) (trace s)).
Proof. reflexivity. Qed.

Lemma bind_reg_write {B : Type} (ip : dma) (off v : Z) (k : unit -> M B)
    (s : state) :
  bind (reg_write ip off v) k s =
  k tt (State (self s) (hw s) (trace s ++ [RegWrite ip off v])).
Proof. reflexivity. Qed.

Lemma bind_assert_true {B : Type} (msg : string) (k : unit -> M B) (s : state) :
  bind (assert_ true msg) k s = k tt s.
Proof. reflexivity. Qed.

Lemma bind_assert_false {B : Type} (msg : string) (k : unit -> M B)
    (s : state) :
  bind (assert_ false msg) k s = Raise (AssertionError msg) s.
Proof. reflexivity. Qed.

Lemma bind_the_buffer {B : Type} (b : buffer) (k : buffer -> M B) (s : state) :
  bind (the_buffer (Some b)) k s = k b s.
Proof. reflexivity. Qed.

Lemma bind_lift_inr {A B : Type} (a : A) (k : A -> M B) (s : state) :
  bind (lift (inr a)) k s = k a s.
Proof. reflexivity. Qed.

Lemma bind_lift_inl {A B : Type} (e : exn) (k : A -> M B) (s : state) :
  bind (lift (inl e)) k s = Raise e s.
Proof. reflexivity. Qed.

Lemma bind_odma_read {B : Type} (off : Z) (k : Z -> M B) {v : Z}
    {rest : list Z} {s : state} :
  odma_status (hw s) = v :: rest ->
  bind (odma_read off) k s =
  k v (State (self s) (set_odma_status rest (hw s))
             (trace s ++ [RegRead ODMA off v])).
Proof. intros E. unfold bind at 1. rewrite (odma_read_next off E). reflexivity. Qed.

Lemma bind_idt {B : Type} (k : datatype -> M B) (s : state) :
  bind idt k s = k (io_idt (_io_shape_dict (self s))) s.
Proof. reflexivity. Qed.

Lemma bind_odt {B : Type} (k : datatype -> M B) (s : state) :
  bind odt k s = k (io_odt (_io_shape_dict (self s))) s.
Proof. reflexivity. Qed.

Lemma bind_ishape_normal {B : Type} (k : list Z -> M B) (s : state) :
  bind ishape_normal k s =
  bind (lift (with_batch (_batch_size (self s))
                         (io_ishape_normal (_io_shape_dict (self s))))) k s.
Proof. reflexivity. Qed.

Lemma bind_oshape_normal {B : Type} (k : list Z -> M B) (s : state) :
  bind oshape_normal k s =
  bind (lift (with_batch (_batch_size (self s))
                         (io_oshape_normal (_io_shape_dict (self s))))) k s.
Proof. reflexivity. Qed.

Lemma bind_ishape_folded {B : Type} (k : list Z -> M B) (s : state) :
  bind ishape_folded k s =
  bind (lift (with_batch (_batch_size (self s))
                         (io_ishape_folded (_io_shape_dict (self s))))) k s.
Proof. reflexivity. Qed.

Lemma bind_oshape_folded {B : Type} (k : list Z -> M B) (s : state) :
  bind oshape_folded k s =
  bind (lift (with_batch (_batch_size (self s))
                         (io_oshape_folded (_io_shape_dict (self s))))) k s.
Proof. reflexivity. Qed.

Lemma bind_ishape_packed {B : Type} (k : list Z -> M B) (s : state) :
  bind ishape_packed k s =
  bind (lift (with_batch (_batch_size (self s))
                         (io_ishape_packed (_io_shape_dict (self s))))) k s.
Proof. reflexivity. Qed.

Lemma bind_oshape_packed {B : Type} (k : list Z -> M B) (s : state) :
  bind oshape_packed k s =
  bind (lift (with_batch (_batch_size (self s))
                         (io_oshape_packed (_io_shape_dict (self s))))) k s.
Proof. reflexivity. Qed.

(** A shape property returns the configured tuple with the batch size in
    front, and leaves the state alone. *)
Lemma shape_property_ok (r : exn + list Z) (v : list Z) (s s' : state) :
  lift r s = Ok v s' -> r = inr v.
Proof. destruct r; cbn; [discriminate | intros [= -> _]; reflexivity]. Qed.

(** One step of a run: reassociate, execute the primitive at the head, and
    simplify the state it leaves. *)
Ltac mstep :=
  match goal with
  | |- context [bind (bind ?c ?k) ?h ?s] => rewrite (bind_bind c k h s)
  | |- context [bind (ret ?a) ?k ?s] => rewrite (bind_ret a k s)
  | |- context [bind (emit ?e) ?k ?s] => rewrite (bind_emit e k s)
  | |- context [bind get_self ?k ?s] => rewrite (bind_get_self k s)
  | |- context [bind get_hw ?k ?s] => rewrite (bind_get_hw k s)
  | |- context [bind (modify_self ?f) ?k ?s] => rewrite (bind_modify_self f k s)
  | |- context [bind (modify_hw ?f) ?k ?s] => rewrite (bind_modify_hw f k s)
  | |- context [bind (reg_write ?i ?o ?v) ?k ?s] =>
      rewrite (bind_reg_write i o v k s)
  | |- context [bind (assert_ true ?m) ?k ?s] => rewrite (bind_assert_true m k s)
  | |- context [bind (assert_ false ?m) ?k ?s] =>
      rewrite (bind_assert_false m k s)
  | |- context [bind (the_buffer (Some ?b)) ?k ?s] =>
      rewrite (bind_the_buffer b k s)
  | |- context [bind (lift (inr ?a)) ?k ?s] => rewrite (bind_lift_inr a k s)
  | |- context [bind (lift (inl ?e)) ?k ?s] => rewrite (bind_lift_inl e k s)
  | |- context [bind (raise ?e) ?k ?s] => rewrite (bind_raise e k s)
  | |- context [bind idt ?k ?s] => rewrite (bind_idt k s)
  | |- context [bind odt ?k ?s] => rewrite (bind_odt k s)
  | |- context [bind ishape_normal ?k ?s] => rewrite (bind_ishape_normal k s)
  | |- context [bind oshape_normal ?k ?s] => rewrite (bind_oshape_normal k s)
  | |- context [bind ishape_folded ?k ?s] => rewrite (bind_ishape_folded k s)
  | |- context [bind oshape_folded ?k ?s] => rewrite (bind_oshape_folded k s)
  | |- context [bind ishape_packed ?k ?s] => rewrite (bind_ishape_packed k s)
  | |- context [bind oshape_packed ?k ?s] => rewrite (bind_oshape_packed k s)
  end;
  cbn [self hw trace].

Ltac mrun := repeat mstep.

(** ** Launching *)

Lemma execute_on_buffers_blocking (bs : option Z) (s : state) :
  execute_on_buffers false bs s =
  (execute_on_buffers true bs ;; wait_until_finished) s.
Proof.
  unfold execute_on_buffers. cbv zeta. mrun.
  destruct (_ <=? _); mrun; [|reflexivity].
  apply bind_ext. reflexivity.
Qed.

Lemma bind_odma_read_end {B : Type} (off : Z) (k : Z -> M B) {s : state} :
  odma_status (hw s) = [] -> bind (odma_read off) k s = Stalled s.
Proof.
  intros E. unfold odma_read. rewrite bind_bind, bind_get_hw, E. reflexivity.
Qed.

(** A read of the status register, given what the sequence holds. *)
Ltac mread E :=
  first [ erewrite bind_odma_read; [|exact E]
        | rewrite bind_odma_read_end; [|exact E] ];
  cbn [self hw trace].

Lemma extends_add (s : state) (sf : overlay) (b : board) (t : list event) :
  extends s (State sf b (trace s ++ t)) (calls t).
Proof. exists t. split; reflexivity. Qed.

(** Bring the trace of the state reached into the form [trace s ++ t]. *)
Ltac trace_norm :=
  cbn [self hw trace];
  repeat rewrite <- app_assoc; cbn [app].

(** What a launch that returns has done, in non-blocking mode. *)
Lemma execute_on_buffers_launch_inv (bs : option Z) (s s' : state) :
  execute_on_buffers true bs s = Ok tt s' ->
  extends s s' [m_execute_on_buffers] /\
  _batch_size (self s') = _batch_size (self s) /\
  _io_shape_dict (self s') = _io_shape_dict (self s) /\
  platform (self s') = platform (self s) /\
  ibuf_packed_device (self s') = ibuf_packed_device (self s) /\
  obuf_packed_device (self s') = obuf_packed_device (self s) /\
  obuf_packed (self s') = obuf_packed (self s) /\
  (exists ib ob, ibuf_packed_device (self s) = Some ib /\
                 obuf_packed_device (self s) = Some ob) /\
  (platform (self s) = "alveo" -> odma_handle (self s') <> None).
Proof.
  unfold execute_on_buffers. cbv zeta. mrun.
  destruct (_ <=? _); mrun; [|discriminate].
  destruct (platform (self s) =? "zynq-iodma")%string eqn:Ez.
  - mrun. destruct (odma_status (hw s)) as [|v rest] eqn:Es.
    + mread Es. discriminate.
    + mread Es. mrun.
      destruct (negb _); mrun; [|discriminate].
      destruct (ibuf_packed_device (self s)) as [ib|] eqn:Ei; [|discriminate].
      mrun.
      destruct (obuf_packed_device (self s)) as [ob|] eqn:Eo; [|discriminate].
      mrun. cbn [Bool.eqb]. unfold ret. intros [= <-]. trace_norm.
      cbn. rewrite ?Ei, ?Eo. repeat split; try reflexivity.
      * apply (extends_add s).
      * eexists _, _; split; reflexivity.
      * intros Ha. rewrite Ha in Ez. discriminate.
  - destruct (platform (self s) =? "alveo")%string eqn:Ea; [|discriminate].
    mrun. destruct (odma_handle (self s)); mrun; [discriminate|].
    unfold dma_start.
    destruct (ibuf_packed_device (self s)) as [ib|] eqn:Ei; [|discriminate].
    mrun.
    destruct (obuf_packed_device (self s)) as [ob|] eqn:Eo; [|discriminate].
    mrun. cbn [Bool.eqb]. unfold ret. intros [= <-]. trace_norm.
    cbn. rewrite ?Ei, ?Eo. repeat split; try reflexivity.
    + apply (extends_add s).
    + eexists _, _; split; reflexivity.
    + discriminate.
Qed.

(** The completed transfer rewrites the contents of the output buffer and
    nothing else. *)
Lemma output_transfer_done_spec (s : state) :
  exists o',
    output_transfer_done s = Ok tt (State o' (hw s) (trace s)) /\
    _batch_size o' = _batch_size (self s) /\
    _io_shape_dict o' = _io_shape_dict (self s) /\
    platform o' = platform (self s) /\
    ibuf_packed_device o' = ibuf_packed_device (self s) /\
    obuf_packed o' = obuf_packed (self s) /\
    odma_handle o' = odma_handle (self s) /\
    (forall ob, obuf_packed_device (self s) = Some ob ->
       exists ob', obuf_packed_device o' = Some ob' /\
                   buf_shape ob' = buf_shape ob /\
                   device_address ob' = device_address ob).
Proof.
  destruct s as [o b t]. unfold output_transfer_done. mrun.
  destruct (ibuf_packed_device o) as [ib|] eqn:Ei,
           (obuf_packed_device o) as [ob|] eqn:Eo;
    eexists; (split; [reflexivity|]); cbn; rewrite ?Ei, ?Eo;
    repeat split; try reflexivity;
    intros ob0 [= <-]; eexists; repeat split; reflexivity.
Qed.

(** What a wait that returns has done. *)
Lemma wait_until_finished_inv (s s' : state) :
  wait_until_finished s = Ok tt s' ->
  extends s s' [m_wait_until_finished] /\
  _batch_size (self s') = _batch_size (self s) /\
  _io_shape_dict (self s') = _io_shape_dict (self s) /\
  platform (self s') = platform (self s) /\
  ibuf_packed_device (self s') = ibuf_packed_device (self s) /\
  obuf_packed (self s') = obuf_packed (self s) /\
  (forall ob, obuf_packed_device (self s) = Some ob ->
     exists ob', obuf_packed_device (self s') = Some ob' /\
                 buf_shape ob' = buf_shape ob /\
                 device_address ob' = device_address ob) /\
  (platform (self s) = "alveo" -> odma_handle (self s') = None).
Proof.
  unfold wait_until_finished. mrun.
  destruct (platform (self s) =? "zynq-iodma")%string eqn:Ez.
  - destruct (odma_status (hw s)) as [|v rest] eqn:Es.
    + mread Es. discriminate.
    + mread Es. mrun.
      unfold bind at 1.
      destruct (wait_loop _ _ _) as [[] s1| |] eqn:Ew; try discriminate.
      apply wait_loop_inv in Ew. destruct Ew as [Hself Hext].
      cbn [self] in Hself.
      destruct (output_transfer_done_spec s1)
        as (o' & E & Hb & Hd & Hp & Hi & Hop & _ & Hob).
      rewrite E. intros [= <-]. cbn [self hw trace].
      rewrite Hself in *. repeat split; try assumption.
      * destruct Hext as (t & Et & Ct). cbn [trace] in Et.
        exists (Call m_wait_until_finished :: RegRead ODMA 0 v :: t).
        cbn [trace]. rewrite Et, <- !app_assoc. cbn [app calls flat_map].
        split; [reflexivity|]. f_equal. exact Ct.
      * intros Ha. rewrite Ha in Ez. discriminate.
  - destruct (platform (self s) =? "alveo")%string eqn:Ea; [|discriminate].
    destruct (odma_handle (self s)) as [h|]; [|discriminate].
    mrun. unfold bind at 1.
    match goal with
    | |- context [output_transfer_done ?st] =>
        destruct (output_transfer_done_spec st)
          as (o' & E & Hb & Hd & Hp & Hi & Hop & _ & Hob);
        rewrite E
    end.
    mrun. unfold ret. intros [= <-]. cbn [self hw trace] in *.
    cbn. repeat split; try assumption.
    exists [Call m_wait_until_finished; HandleWait h].
    rewrite <- app_assoc. split; reflexivity.
Qed.



(** C7: on the register-polled backend a launch reads the output status
    register first and raises "Output DMA is not idle" unless the idle bit
    (mask 0x4) is set; otherwise it writes address and count of the input
    channel, address and count of the output channel, then the start bit of
    the input channel and last the start bit of the output channel. *)
Theorem zynq_launch_order (asynch : bool) (bs : option Z) (s : state)
    (status : Z) (rest : list Z) (ib ob : buffer) :
  platform (self s) = "zynq-iodma" ->
  odma_status (hw s) = status :: rest ->
  ibuf_packed_device (self s) = Some ib ->
  obuf_packed_device (self s) = Some ob ->
  match bs with None => True | Some n => n <= _batch_size (self s) end ->
  let n := match bs with None => _batch_size (self s) | Some n => n end in
  let checked :=
    State (self s) (set_odma_status rest (hw s))
          (trace s ++ [Call m_execute_on_buffers; RegRead ODMA 0x00 status]) in
  let launched :=
    State (self s) (set_odma_status rest (hw s))
          (trace s ++ [Call m_execute_on_buffers;
                       RegRead ODMA 0x00 status;
                       RegWrite IDMA 0x10 (device_address ib);
                       RegWrite IDMA 0x1C n;
                       RegWrite ODMA 0x10 (device_address ob);
                       RegWrite ODMA 0x1C n;
                       RegWrite IDMA 0x00 1;
                       RegWrite ODMA 0x00 1]) in
  execute_on_buffers asynch bs s =
    if Z.land status 0x4 =? 0
    then Raise (AssertionError "Output DMA is not idle") checked
    else if asynch then Ok tt launched else wait_until_finished launched.
Proof.
  intros Hz Es Ei Eo Hbs n checked launched.
  unfold execute_on_buffers. cbv zeta. mrun. fold n.
  replace (n <=? _batch_size (self s)) with true
    by (symmetry; apply Z.leb_le; subst n; destruct bs; lia).
  mrun. rewrite Hz. rewrite String.eqb_refl. mrun.
  mread Es. mrun.
  destruct (Z.land status 4 =? 0); cbn [negb]; mrun.
  - subst checked. trace_norm. reflexivity.
  - rewrite Ei. mrun. rewrite Eo. mrun.
    subst launched. trace_norm.
    destruct asynch; reflexivity.
Qed.

Lemma zynq_launch_order_witness :
  execute_on_buffers true None (zynq_session [4]) =
  Ok tt (State (self (zynq_session [4]))
               (set_odma_status [] (hw (zynq_session [4])))
               (trace (zynq_session [4]) ++
                [Call m_execute_on_buffers; RegRead ODMA 0 4;
                 RegWrite IDMA 16 4096; RegWrite IDMA 28 1;
                 RegWrite ODMA 16 4100; RegWrite ODMA 28 1;
                 RegWrite IDMA 0 1; RegWrite ODMA 0 1])).
Proof.
  apply (zynq_launch_order true None (zynq_session [4]) 4 []
           (Buffer 4096 [1; 2; 2] [0; 0; 0; 0] (Some true))
           (Buffer 4100 [1; 2; 2] [0; 0; 0; 0] (Some true)));
    first [reflexivity | exact I].
Defined.

(** C3: blocking is requested with [asynch = False].  A blocking launch is
    the non-blocking launch followed by [wait_until_finished], which it
    calls before returning; a non-blocking launch ([asynch = True]) that
    returns has entered no wait: the wait is left to the caller, and on the
    handle-based backend the completion handle is still held. *)
Theorem execute_on_buffers_blocking_modes (bs : option Z) (s s' : state) :
  execute_on_buffers true bs s = Ok tt s' ->
  execute_on_buffers false bs s
    = (execute_on_buffers true bs ;; wait_until_finished) s /\
  execute_on_buffers false bs s = wait_until_finished s' /\
  (forall s'', wait_until_finished s' = Ok tt s'' ->
     extends s s'' [m_execute_on_buffers; m_wait_until_finished]) /\
  extends s s' [m_execute_on_buffers] /\
  (platform (self s) = "alveo" -> odma_handle (self s') <> None).
Proof.
  intros H. pose proof (execute_on_buffers_launch_inv bs s s' H) as Hinv.
  destruct Hinv as (Hx & _ & _ & _ & _ & _ & _ & _ & Hh).
  split; [|split; [|split; [|split]]].
  - apply execute_on_buffers_blocking.
  - rewrite execute_on_buffers_blocking. unfold bind. rewrite H. reflexivity.
  - intros s'' Hw. apply wait_until_finished_inv in Hw.
    change [m_execute_on_buffers; m_wait_until_finished]
      with ([m_execute_on_buffers] ++ [m_wait_until_finished]).
    eapply extends_trans; [exact Hx | apply Hw].
  - exact Hx.
  - exact Hh.
Qed.

Lemma execute_on_buffers_blocking_modes_witness :
  execute_on_buffers false None alveo_session =
  wait_until_finished alveo_launched.
Proof.
  refine (proj1 (proj2 (execute_on_buffers_blocking_modes None alveo_session
                          alveo_launched _))).
  vm_compute. reflexivity.
Defined.

(** C5: on the handle-based backend, once a launch has returned without
    waiting, a second launch fails the assertion "Output DMA is already
    running" before any transfer is started; [wait_until_finished] waits on
    the held handle and discards it, after which a launch is accepted
    again. *)
Theorem alveo_single_outstanding_handle (asynch : bool) (bs0 bs : option Z)
    (s0 s : state) :
  platform (self s0) = "alveo" ->
  execute_on_buffers true bs0 s0 = Ok tt s ->
  match bs with None => True | Some n => n <= _batch_size (self s) end ->
  execute_on_buffers asynch bs s =
    Raise (AssertionError "Output DMA is already running")
          (State (self s) (hw s) (trace s ++ [Call m_execute_on_buffers])) /\
  exists h s',
    odma_handle (self s) = Some h /\
    wait_until_finished s = Ok tt s' /\
    trace s' = trace s ++ [Call m_wait_until_finished; HandleWait h] /\
    odma_handle (self s') = None /\
    exists s'', execute_on_buffers true bs s' = Ok tt s''.
Proof.
  intros Ha H Hbs.
  destruct (execute_on_buffers_launch_inv bs0 s0 s H)
    as (_ & Hsz & _ & Hp & Hi & Ho & _ & (ib & ob & Ei & Eo) & Hh).
  specialize (Hh Ha). rewrite Ha in Hp. rewrite Ei in Hi. rewrite Eo in Ho.
  destruct (odma_handle (self s)) as [h|] eqn:Eh; [clear Hh|contradiction].
  assert (Hle : (match bs with None => _batch_size (self s) | Some n => n end
                 <=? _batch_size (self s)) = true)
    by (apply Z.leb_le; destruct bs; lia).
  split.
  - unfold execute_on_buffers. cbv zeta. mrun. rewrite Hle. mrun.
    rewrite Hp. cbn [String.eqb Ascii.eqb Bool.eqb]. rewrite Eh. mrun.
    reflexivity.
  - destruct s as [o b t]. cbn [self hw trace] in *.
    exists h.
    unfold wait_until_finished, output_transfer_done. mrun.
    rewrite Hp. cbn [String.eqb Ascii.eqb Bool.eqb]. rewrite Eh. mrun.
    rewrite Hi, Ho. mrun. eexists. split; [reflexivity|].
    split; [reflexivity|]. cbn [self hw trace]. rewrite <- app_assoc.
    split; [reflexivity|]. split; [reflexivity|].
    unfold execute_on_buffers, dma_start. cbv zeta. mrun.
    cbn [_batch_size set_odma_handle set_obuf_packed_device platform
         odma_handle ibuf_packed_device obuf_packed_device].
    rewrite Hle. mrun. rewrite Hp. cbn [String.eqb Ascii.eqb Bool.eqb]. mrun.
    rewrite Hi. mrun. cbn [Bool.eqb]. eexists. reflexivity.
Qed.

Lemma alveo_single_outstanding_handle_witness :
  execute_on_buffers true None alveo_launched =
  Raise (AssertionError "Output DMA is already running")
        (State (self alveo_launched) (hw alveo_launched)
               (trace alveo_launched ++ [Call m_execute_on_buffers])).
Proof.
  refine (proj1 (alveo_single_outstanding_handle true None None
                   alveo_session alveo_launched _ _ _)).
  - reflexivity.
  - vm_compute. reflexivity.
  - exact I.
Defined.

Lemma wait_until_finished_polls_done_bit_witness :
  exists s',
    wait_until_finished (zynq_session [0; 4; 2; 0]) = Ok tt s' /\
    odma_status (hw s') = [0] /\
    trace s' = trace (zynq_session [0; 4; 2; 0]) ++
               Call m_wait_until_finished
               :: map (RegRead ODMA 0) ([0; 4] ++ [2]).
Proof.
  apply (proj1 (wait_until_finished_polls_done_bit
                  (zynq_session [0; 4; 2; 0]) eq_refl)).
  - reflexivity.
  - repeat constructor.
  - discriminate.
Defined.

(** ** The stages of [execute] *)

Lemma fold_input_inv (x y : ndarray) (s s' : state) :
  fold_input x s = Ok y s' ->
  s' = State (self s) (hw s) (trace s ++ [Call m_fold_input]) /\
  ishape_normal s = Ok (shape x) s /\
  exists folded, ishape_folded s = Ok folded s /\ reshape x folded = inr y.
Proof.
  unfold fold_input. mrun.
  destruct (with_batch _ (io_ishape_normal _)) as [e|n] eqn:En; mrun;
    [discriminate|].
  destruct (ints_eqb (shape x) n) eqn:Eq; mrun; [|discriminate].
  apply ints_eqb_eq in Eq. subst n.
  destruct (with_batch _ (io_ishape_folded _)) as [e|f] eqn:Ef; mrun;
    [discriminate|].
  destruct (reshape x f) as [e|y'] eqn:Er; unfold lift, ret, raise;
    [discriminate|].
  intros [= <- <-]. split; [reflexivity|]. split.
  - unfold ishape_normal, batch_size. mrun. rewrite En. reflexivity.
  - exists f. split; [|exact Er].
    unfold ishape_folded, batch_size. mrun. rewrite Ef. reflexivity.
Qed.

Lemma pack_input_inv (x p : ndarray) (s s' : state) :
  pack_input x s = Ok p s' ->
  s' = State (self s) (hw s) (trace s ++ [Call m_pack_input]) /\
  finnpy_to_packed_bytearray x (io_idt (_io_shape_dict (self s)))
                             true true true = inr p.
Proof.
  unfold pack_input. mrun.
  destruct (finnpy_to_packed_bytearray _ _ _ _ _) as [e|p'];
    unfold lift, ret, raise; [discriminate|].
  intros [= <- <-]. split; reflexivity.
Qed.

Lemma copy_input_data_to_device_inv (p : ndarray) (s s' : state) :
  copy_input_data_to_device p s = Ok tt s' ->
  exists b bytes,
    ibuf_packed_device (self s) = Some b /\
    copyto (buf_shape b) p = inr bytes /\
    s' = State (set_ibuf_packed_device
                  (Some (Buffer (device_address b) (buf_shape b) bytes
                                (cacheable b))) (self s))
               (hw s)
               (trace s ++ [Call m_copy_input_data_to_device;
                            Flush (device_address b)]).
Proof.
  unfold copy_input_data_to_device. mrun.
  destruct (ibuf_packed_device (self s)) as [b|] eqn:Eb; [|discriminate].
  destruct (copyto (buf_shape b) p) as [e|bytes] eqn:Ec; mrun;
    [discriminate|].
  unfold emit. intros [= <-].
  exists b, bytes. cbn [self hw trace]. rewrite <- app_assoc.
  split; [reflexivity|]. split; [exact Ec | reflexivity].
Qed.

Lemma copy_output_data_from_device_inv (s s' : state) :
  copy_output_data_from_device s = Ok tt s' ->
  exists b dst bytes,
    obuf_packed_device (self s) = Some b /\
    obuf_packed (self s) = Some dst /\
    copyto (shape dst) (NdArray (buf_shape b) (buf_data b)) = inr bytes /\
    s' = State (set_obuf_packed (Some (NdArray (shape dst) bytes)) (self s))
               (hw s)
               (trace s ++ [Call m_copy_output_data_from_device;
                            Invalidate (device_address b)]).
Proof.
  unfold copy_output_data_from_device. mrun.
  destruct (obuf_packed_device (self s)) as [b|] eqn:Eb; [|discriminate].
  mrun.
  destruct (obuf_packed (self s)) as [dst|] eqn:Ed; [|discriminate].
  destruct (copyto (shape dst) _) as [e|bytes] eqn:Ec; mrun; [discriminate|].
  unfold modify_self. intros [= <-].
  exists b, dst, bytes. cbn [self hw trace]. rewrite <- app_assoc.
  split; [reflexivity|]. split; [reflexivity|].
  split; [exact Ec | reflexivity].
Qed.

Lemma unpack_output_inv (p y : ndarray) (s s' : state) :
  unpack_output p s = Ok y s' ->
  s' = State (self s) (hw s) (trace s ++ [Call m_unpack_output]) /\
  exists target,
    oshape_folded s = Ok target s /\
    packed_bytearray_to_finnpy p (io_odt (_io_shape_dict (self s))) target
                               true true true = inr y.
Proof.
  unfold unpack_output. mrun.
  destruct (with_batch _ (io_oshape_folded _)) as [e|f] eqn:Ef; mrun;
    [discriminate|].
  destruct (packed_bytearray_to_finnpy _ _ _ _ _ _) as [e|y'] eqn:Eu;
    unfold lift, ret, raise; [discriminate|].
  intros [= <- <-]. split; [reflexivity|]. exists f. split; [|exact Eu].
  unfold oshape_folded, batch_size. mrun. rewrite Ef. reflexivity.
Qed.

Lemma unfold_output_inv (x y : ndarray) (s s' : state) :
  unfold_output x s = Ok y s' ->
  s' = State (self s) (hw s) (trace s ++ [Call m_unfold_output]) /\
  exists normal, oshape_normal s = Ok normal s /\ reshape x normal = inr y.
Proof.
  unfold unfold_output. mrun.
  destruct (with_batch _ (io_oshape_normal _)) as [e|n] eqn:En; mrun;
    [discriminate|].
  destruct (reshape x n) as [e|y'] eqn:Er; unfold lift, ret, raise;
    [discriminate|].
  intros [= <- <-]. split; [reflexivity|].
  exists n. split; [|exact Er].
  unfold oshape_normal, batch_size. mrun. rewrite En. reflexivity.
Qed.

(** C10: an input whose shape is not the expected normal input shape
    (batch size first, the configured dimensions after) makes [execute] fail
    the assertion of [fold_input]; at that point the object and the board
    are as before the call and nothing but the entries of [execute] and
    [fold_input] has been recorded: no packing, no copy, no launch. *)
Theorem execute_rejects_unexpected_shape (x : ndarray) (expected : list Z)
    (s : state) :
  ishape_normal s = Ok expected s ->
  shape x <> expected ->
  execute x s =
  Raise (AssertionError "")
        (State (self s) (hw s) (trace s ++ [Call m_execute; Call m_fold_input])).
Proof.
  intros He Hne. unfold ishape_normal, batch_size in He. revert He. mrun.
  intros He. apply shape_property_ok in He.
  unfold execute, fold_input. mrun. rewrite He. mrun.
  rewrite (ints_eqb_neq _ _ Hne). mrun. rewrite <- app_assoc. reflexivity.
Qed.

Lemma execute_rejects_unexpected_shape_witness :
  execute (NdArray [2; 8] (repeat 0 16)) (zynq_session [4; 2]) =
  Raise (AssertionError "")
        (State (self (zynq_session [4; 2])) (hw (zynq_session [4; 2]))
               (trace (zynq_session [4; 2]) ++
                [Call m_execute; Call m_fold_input])).
Proof.
  apply (execute_rejects_unexpected_shape (NdArray [2; 8] (repeat 0 16))
           [1; 8] (zynq_session [4; 2])).
  - reflexivity.
  - discriminate.
Defined.

(** C1: for a folded array [x] whose elements are representable in the
    configured datatype and whose shape is the configured folded shape (input
    and output datatype being the same), [pack_input] returns a byte buffer
    and [unpack_output] of that buffer returns [x] itself; both directions
    use reverse_endian = reverse_inner = True. *)
Theorem pack_unpack_roundtrip (x : ndarray) (s : state) :
  io_idt (_io_shape_dict (self s)) = io_odt (_io_shape_dict (self s)) ->
  oshape_folded s = Ok (shape x) s ->
  wf_ndarray x ->
  Forall (fun v => representable (io_idt (_io_shape_dict (self s))) v = true)
         (data x) ->
  exists packed s1 s2,
    pack_input x s = Ok packed s1 /\
    unpack_output packed s1 = Ok x s2.
Proof.
  intros Hdt Hof Hwf Hrep.
  unfold oshape_folded, batch_size in Hof. revert Hof. mrun. intros Hof.
  apply shape_property_ok in Hof.
  assert (Hne : shape x <> []).
  { intros E. rewrite E in Hof. unfold with_batch in Hof.
    destruct (io_oshape_folded _); discriminate. }
  destruct (unpack_pack_array x (io_idt (_io_shape_dict (self s)))
              true true true true Hne Hwf Hrep) as (p & Hp & Hu).
  exists p. unfold pack_input. mrun. rewrite Hp. unfold lift, ret.
  eexists. eexists. split; [reflexivity|].
  unfold unpack_output. mrun. rewrite Hof. mrun. rewrite <- Hdt, Hu.
  reflexivity.
Qed.

Lemma pack_unpack_roundtrip_witness :
  exists packed s1 s2,
    pack_input (NdArray [1; 2; 4] [1; 2; 3; 4; 5; 6; 7; 8]) (zynq_session [])
      = Ok packed s1 /\
    unpack_output packed s1
      = Ok (NdArray [1; 2; 4] [1; 2; 3; 4; 5; 6; 7; 8]) s2.
Proof.
  apply (pack_unpack_roundtrip (NdArray [1; 2; 4] [1; 2; 3; 4; 5; 6; 7; 8])
           (zynq_session [])).
  - reflexivity.
  - reflexivity.
  - split; [repeat constructor; lia | reflexivity].
  - repeat constructor.
Defined.

(** ** The whole pipeline *)
Lemma ishape_normal_ok (s s' : state) (v : list Z) :
  ishape_normal s = Ok v s' ->
  with_batch (_batch_size (self s)) (io_ishape_normal (_io_shape_dict (self s)))
  = inr v.
Proof. intros H. exact (shape_property_ok _ _ _ _ H). Qed.

Lemma ishape_folded_ok (s s' : state) (v : list Z) :
  ishape_folded s = Ok v s' ->
  with_batch (_batch_size (self s)) (io_ishape_folded (_io_shape_dict (self s)))
  = inr v.
Proof. intros H. exact (shape_property_ok _ _ _ _ H). Qed.

Lemma oshape_normal_ok (s s' : state) (v : list Z) :
  oshape_normal s = Ok v s' ->
  with_batch (_batch_size (self s)) (io_oshape_normal (_io_shape_dict (self s)))
  = inr v.
Proof. intros H. exact (shape_property_ok _ _ _ _ H). Qed.

Lemma oshape_folded_ok (s s' : state) (v : list Z) :
  oshape_folded s = Ok v s' ->
  with_batch (_batch_size (self s)) (io_oshape_folded (_io_shape_dict (self s)))
  = inr v.
Proof. intros H. exact (shape_property_ok _ _ _ _ H). Qed.

(** What a blocking launch that returns has done. *)
Lemma execute_on_buffers_wait_inv (bs : option Z) (s s' : state) :
  execute_on_buffers false bs s = Ok tt s' ->
  extends s s' [m_execute_on_buffers; m_wait_until_finished] /\
  same_config s s' /\
  ibuf_packed_device (self s') = ibuf_packed_device (self s) /\
  obuf_packed (self s') = obuf_packed (self s) /\
  (forall ob, obuf_packed_device (self s) = Some ob ->
     exists ob', obuf_packed_device (self s') = Some ob' /\
                 buf_shape ob' = buf_shape ob).
Proof.
  rewrite execute_on_buffers_blocking. unfold bind.
  destruct (execute_on_buffers true bs s) as [[] s1| |] eqn:E1; try discriminate.
  intros E2.
  apply execute_on_buffers_launch_inv in E1.
  destruct E1 as (X1 & B1 & D1 & P1 & I1 & O1 & H1 & _ & _).
  apply wait_until_finished_inv in E2.
  destruct E2 as (X2 & B2 & D2 & P2 & I2 & H2 & O2 & _).
  split; [|split; [|split; [|split]]].
  - change [m_execute_on_buffers; m_wait_until_finished]
      with ([m_execute_on_buffers] ++ [m_wait_until_finished]).
    eapply extends_trans; eassumption.
  - unfold same_config. repeat split; congruence.
  - congruence.
  - congruence.
  - intros ob Eo. rewrite <- O1 in Eo. destruct (O2 ob Eo) as (ob' & E' & S' & _).
    exists ob'. split; assumption.
Qed.

Lemma execute_on_buffers_returns (s : state) (ib ob : buffer) :
  engine_ready s ->
  ibuf_packed_device (self s) = Some ib ->
  obuf_packed_device (self s) = Some ob ->
  exists s', execute_on_buffers false None s = Ok tt s'.
Proof.
  intros [(Hz & idle & pre & d & post & Es & Hidle & Hpre & Hd)|(Ha & Hh)] Ei Eo.
  - unfold execute_on_buffers. cbv zeta. mrun.
    rewrite Z.leb_refl. mrun. rewrite Hz. rewrite String.eqb_refl. mrun.
    mread Es. mrun.
    apply Z.eqb_neq in Hidle. rewrite Hidle. cbn [negb]. mrun.
    rewrite Ei. mrun. rewrite Eo. mrun. cbn [Bool.eqb].
    match goal with
    | |- exists s', wait_until_finished ?st = _ =>
        destruct (wait_until_finished_zynq_returns st pre d post)
          as (s' & E & _); [exact Hz | reflexivity | exact Hpre | exact Hd |]
    end.
    exists s'. exact E.
  - unfold execute_on_buffers, dma_start. cbv zeta. mrun.
    rewrite Z.leb_refl. mrun. rewrite Ha. cbn [String.eqb Ascii.eqb Bool.eqb].
    rewrite Hh. mrun. rewrite Ei. mrun. rewrite Eo. mrun.
    cbn [Bool.eqb].
    unfold wait_until_finished, output_transfer_done. mrun.
    cbn [platform set_odma_handle odma_handle ibuf_packed_device
         obuf_packed_device].
    rewrite Ha. cbn [String.eqb Ascii.eqb Bool.eqb]. mrun.
    cbn [set_odma_handle ibuf_packed_device obuf_packed_device].
    rewrite Ei, Eo. mrun. eexists. reflexivity.
Qed.

Lemma packed_shape_split (dt : datatype) (folded packed : list Z) :
  packed_shape dt folded = Some packed ->
  exists outer g,
    split_inner folded = Some (outer, g) /\
    packed = outer ++ [Z.of_nat (nbytes (bitwidth dt) (Z.to_nat g))].
Proof.
  unfold packed_shape. destruct (split_inner folded) as [[outer g]|];
    [|discriminate].
  intros [= <-]. exists outer, g. split; reflexivity.
Qed.

(** On a ready session [execute] returns, and what it returns has the
    normal output shape. *)
Lemma execute_returns (x : ndarray) (s : state) :
  session_ready s x ->
  exists out s',
    execute x s = Ok out s' /\ oshape_normal s = Ok (shape out) s.
Proof.
  intros [Hin Hval (folded & ib & Hif & Hfpos & Hfprod & Eib & Hip)
              (ofolded & onormal & ob & host & Hof & Hon & Hnpos & Hnprod &
               Eob & Ehost & Hhs & Hop) Heng].
  pose proof Hon as Hon'.
  apply ishape_normal_ok in Hin. apply ishape_folded_ok in Hif.
  apply oshape_folded_ok in Hof. apply oshape_normal_ok in Hon.
  destruct (packed_shape_split _ _ _ Hip) as (iouter & ig & Hisplit & Hipk).
  destruct (packed_shape_split _ _ _ Hop) as (oouter & og & Hosplit & Hopk).
  unfold execute, fold_input. mrun. rewrite Hin. mrun.
  rewrite ints_eqb_refl. mrun. rewrite Hif. mrun.
  rewrite (reshape_nonneg x folded Hfpos Hfprod). mrun.
  unfold pack_input. mrun.
  unfold finnpy_to_packed_bytearray at 1. cbn [shape data].
  rewrite Hisplit, (forallb_representable _ _ Hval). mrun.
  unfold copy_input_data_to_device. mrun. rewrite Eib.
  rewrite copyto_same by (cbn [shape]; symmetry; exact Hipk).
  cbn [data]. mrun.
  unfold bind at 1.
  match goal with
  | |- context [execute_on_buffers false None ?st] =>
      destruct (execute_on_buffers_returns st
                  (Buffer (device_address ib) (buf_shape ib)
                     (flat_map (pack_word (io_idt (_io_shape_dict (self s)))
                                  true true)
                        (chunks (Z.to_nat (prod_shape iouter))
                                (Z.to_nat ig) (data x)))
                     (cacheable ib))
                  ob) as (s5 & E5)
  end.
  { destruct Heng as [(Hz & R)|(Ha & Hh)]; [left | right]; split; assumption. }
  { reflexivity. }
  { exact Eob. }
  rewrite E5.
  apply execute_on_buffers_wait_inv in E5.
  destruct E5 as (_ & (B5 & D5 & P5) & I5 & H5 & O5).
  cbn [self hw trace _batch_size _io_shape_dict platform obuf_packed
       obuf_packed_device ibuf_packed_device set_ibuf_packed_device] in *.
  destruct (O5 ob Eob) as (ob' & Eob' & Hob').
  unfold copy_output_data_from_device. mrun. rewrite Eob'. mrun.
  rewrite H5, Ehost.
  rewrite copyto_same by (cbn [shape]; rewrite Hob'; symmetry; exact Hhs).
  cbn [data]. mrun.
  cbn [obuf_packed set_obuf_packed].
  unfold unpack_output. mrun.
  cbn [_batch_size _io_shape_dict set_obuf_packed].
  rewrite B5, D5, Hof. mrun.
  unfold packed_bytearray_to_finnpy at 1. cbn [shape data].
  rewrite Hosplit, Hhs, Hopk, ints_eqb_refl. mrun.
  unfold unfold_output. mrun.
  cbn [_batch_size _io_shape_dict set_obuf_packed].
  rewrite B5, D5, Hon. mrun.
  rewrite reshape_nonneg by (cbn [shape]; assumption).
  unfold lift, ret. eexists. eexists. split; [reflexivity|]. exact Hon'.
Qed.

(** A blocking launch on a ready engine, as an equation: what it records
    and what it leaves in the output buffer. *)
Lemma blocking_launch_run (o : overlay) (b : board) (ib ob : buffer) :
  engine_ready (State o b []) ->
  ibuf_packed_device o = Some ib ->
  obuf_packed_device o = Some ob ->
  exists t b',
    launch_and_wait (State o b []) ib ob t /\
    forall tr,
      execute_on_buffers false None (State o b tr) =
      Ok tt (State (set_obuf_packed_device
                      (Some (Buffer (device_address ob) (buf_shape ob)
                               (dma_write (accel b (buf_data ib))
                                          (buf_data ob))
                               (cacheable ob))) o)
                   b' (tr ++ t)).
Proof.
  intros [(Hz & idle & pre & d & post & Es & Hidle & Hpre & Hd)|(Ha & Hh)]
         Ei Eo; cbn [self hw trace] in *.
  - apply Z.eqb_neq in Hidle.
    eexists _, (set_odma_status post b). split.
    { left. split; [exact Hz|]. exists idle, pre, d, post.
      split; [exact Es|]. split; [exact Hpre|]. split; [exact Hd|].
      reflexivity. }
    intros tr. unfold execute_on_buffers. cbv zeta. mrun.
    rewrite Z.leb_refl. mrun. rewrite Hz. rewrite String.eqb_refl. mrun.
    mread Es. mrun. rewrite Hidle. cbn [negb]. mrun.
    rewrite Ei. mrun. rewrite Eo. mrun. cbn [Bool.eqb].
    rewrite (wait_until_finished_zynq_run _ pre d post);
      [|exact Hz | reflexivity | exact Hpre | exact Hd].
    unfold output_transfer_done. mrun. rewrite Ei, Eo.
    unfold modify_self. cbn [self hw trace accel set_odma_status].
    repeat rewrite <- app_assoc. reflexivity.
  - destruct o as [wd dict ibd obd hst pf bsz fclk hd].
    cbn [platform odma_handle ibuf_packed_device obuf_packed_device] in *.
    subst pf hd ibd obd.
    eexists _, _. split.
    { right. split; reflexivity. }
    intros tr. unfold execute_on_buffers, dma_start. cbv zeta. mrun.
    cbn [_batch_size platform odma_handle ibuf_packed_device
         obuf_packed_device].
    rewrite Z.leb_refl. mrun. cbn [String.eqb Ascii.eqb Bool.eqb]. mrun.
    unfold wait_until_finished, output_transfer_done. mrun.
    cbn [platform set_odma_handle odma_handle ibuf_packed_device
         obuf_packed_device].
    cbn [String.eqb Ascii.eqb Bool.eqb]. mrun.
    cbn [set_odma_handle ibuf_packed_device obuf_packed_device]. mrun.
    unfold modify_self.
    cbn [self hw trace accel next_handle set_next_handle set_odma_handle
         set_obuf_packed_device runtime_weight_dir _io_shape_dict
         ibuf_packed_device obuf_packed_device obuf_packed platform
         _batch_size fclk_mhz odma_handle].
    repeat rewrite <- app_assoc. reflexivity.
Qed.

(** C2 (as the code has it): on a session that is ready for the input (the
    input has the expected normal shape and representable elements, the
    views of the descriptor have equal element counts and match the
    allocated buffers, the engine is idle and its transfer completes)
    [execute] returns, and it has performed exactly these stages, in this
    order: fold (the input reshaped to the folded input shape), pack, copy
    to device (the input buffer holds the packed bytes and is flushed),
    launch and wait (the events of a blocking launch, after which the output
    buffer holds what the accelerator made of the packed bytes), copy from
    device (the output buffer is invalidated and the host buffer holds its
    bytes), unpack (to the folded output shape) and unfold: the tensor
    returned is the unpacked host buffer reshaped to the normal output
    shape. *)
Theorem execute_stage_sequence (x : ndarray) (s : state) :
  session_ready s x ->
  exists folded packed ib ob transfer unpacked out s',
    let received := dma_write (accel (hw s) (data packed)) (buf_data ob) in
    execute x s = Ok out s' /\
    ishape_folded s = Ok (shape folded) s /\
    reshape x (shape folded) = inr folded /\
    finnpy_to_packed_bytearray folded (io_idt (_io_shape_dict (self s)))
                               true true true = inr packed /\
    ibuf_packed_device (self s) = Some ib /\
    ibuf_packed_device (self s')
      = Some (Buffer (device_address ib) (buf_shape ib) (data packed)
                     (cacheable ib)) /\
    obuf_packed_device (self s) = Some ob /\
    launch_and_wait s ib ob transfer /\
    obuf_packed_device (self s')
      = Some (Buffer (device_address ob) (buf_shape ob) received
                     (cacheable ob)) /\
    obuf_packed (self s') = Some (NdArray (buf_shape ob) received) /\
    oshape_folded s = Ok (shape unpacked) s /\
    packed_bytearray_to_finnpy (NdArray (buf_shape ob) received)
                               (io_odt (_io_shape_dict (self s)))
                               (shape unpacked) true true true
      = inr unpacked /\
    oshape_normal s = Ok (shape out) s /\
    reshape unpacked (shape out) = inr out /\
    trace s' = trace s ++
               [Call m_execute; Call m_fold_input; Call m_pack_input;
                Call m_copy_input_data_to_device; Flush (device_address ib)]
               ++ transfer ++
               [Call m_copy_output_data_from_device;
                Invalidate (device_address ob);
                Call m_unpack_output; Call m_unfold_output].
Proof.
  intros [Hin Hval (folded & ib & Hif & Hfpos & Hfprod & Eib & Hip)
              (ofolded & onormal & ob & host & Hof & Hon & Hnpos & Hnprod &
               Eob & Ehost & Hhs & Hop) Heng].
  pose proof Hif as Hif'. pose proof Hof as Hof'. pose proof Hon as Hon'.
  apply ishape_normal_ok in Hin. apply ishape_folded_ok in Hif.
  apply oshape_folded_ok in Hof. apply oshape_normal_ok in Hon.
  destruct (packed_shape_split _ _ _ Hip) as (iouter & ig & Hisplit & Hipk).
  destruct (packed_shape_split _ _ _ Hop) as (oouter & og & Hosplit & Hopk).
  (* fold and pack *)
  pose proof (reshape_nonneg x folded Hfpos Hfprod) as Hfold.
  destruct (finnpy_to_packed_bytearray (NdArray folded (data x))
              (io_idt (_io_shape_dict (self s))) true true true)
    as [e|packed] eqn:Hpack.
  { exfalso. revert Hpack. unfold finnpy_to_packed_bytearray.
    cbn [shape data]. rewrite Hisplit, (forallb_representable _ _ Hval).
    discriminate. }
  assert (Hps : shape packed = buf_shape ib).
  { revert Hpack. unfold finnpy_to_packed_bytearray. cbn [shape data].
    rewrite Hisplit, (forallb_representable _ _ Hval).
    intros [= <-]. cbn [shape]. symmetry. exact Hipk. }
  (* launch and wait, on the session as the upload leaves it *)
  destruct (blocking_launch_run
              (set_ibuf_packed_device
                 (Some (Buffer (device_address ib) (buf_shape ib)
                               (data packed) (cacheable ib))) (self s))
              (hw s)
              (Buffer (device_address ib) (buf_shape ib) (data packed)
                      (cacheable ib))
              ob)
    as (t & b' & Ht & Erun).
  { destruct Heng as [(Hz & R)|(Ha & Hh)]; [left | right]; split; assumption. }
  { reflexivity. }
  { exact Eob. }
  cbn [buf_data] in Erun.
  (* unpack and unfold *)
  destruct (packed_bytearray_to_finnpy
              (NdArray (buf_shape ob)
                 (dma_write (accel (hw s) (data packed)) (buf_data ob)))
              (io_odt (_io_shape_dict (self s))) ofolded true true true)
    as [e|unpacked] eqn:Hunpack.
  { exfalso. revert Hunpack. unfold packed_bytearray_to_finnpy.
    cbn [shape data]. rewrite Hosplit, Hopk, ints_eqb_refl. discriminate. }
  assert (Hus : shape unpacked = ofolded).
  { revert Hunpack. unfold packed_bytearray_to_finnpy. cbn [shape data].
    rewrite Hosplit, Hopk, ints_eqb_refl. intros [= <-]. reflexivity. }
  assert (Hunfold : reshape unpacked onormal
                    = inr (NdArray onormal (data unpacked))).
  { apply reshape_nonneg; [exact Hnpos | rewrite Hus; exact Hnprod]. }
  exists (NdArray folded (data x)), packed, ib, ob, t, unpacked,
    (NdArray onormal (data unpacked)).
  eexists. cbv zeta. split.
  { (* the run *)
    unfold execute, fold_input. mrun. rewrite Hin. mrun.
    rewrite ints_eqb_refl. mrun. rewrite Hif. mrun.
    rewrite Hfold. mrun.
    unfold pack_input. mrun. rewrite Hpack. mrun.
    unfold copy_input_data_to_device. mrun. rewrite Eib.
    rewrite (copyto_same _ _ Hps). mrun.
    unfold bind at 1. rewrite Erun.
    unfold copy_output_data_from_device. mrun.
    cbn [obuf_packed_device set_obuf_packed_device obuf_packed
         set_ibuf_packed_device].
    mrun. rewrite Ehost.
    rewrite copyto_same by (cbn [shape buf_shape]; symmetry; exact Hhs).
    cbn [data buf_data buf_shape device_address]. mrun.
    cbn [obuf_packed set_obuf_packed].
    unfold unpack_output. mrun.
    cbn [_batch_size _io_shape_dict set_obuf_packed set_obuf_packed_device
         set_ibuf_packed_device].
    rewrite Hof. mrun. rewrite Hhs, Hunpack. mrun.
    unfold unfold_output. mrun.
    cbn [_batch_size _io_shape_dict set_obuf_packed set_obuf_packed_device
         set_ibuf_packed_device].
    rewrite Hon. mrun. rewrite Hunfold.
    unfold lift, ret. reflexivity. }
  cbn [self hw trace shape ibuf_packed_device obuf_packed_device obuf_packed
       set_obuf_packed set_obuf_packed_device set_ibuf_packed_device].
  split; [exact Hif'|]. split; [exact Hfold|]. split; [exact Hpack|].
  split; [exact Eib|]. split; [reflexivity|]. split; [exact Eob|].
  split; [exact Ht|]. split; [reflexivity|].
  split; [reflexivity|].
  rewrite Hus. split; [exact Hof'|]. split; [exact Hunpack|].
  split; [exact Hon'|]. split; [exact Hunfold|].
  repeat rewrite <- app_assoc. reflexivity.
Qed.

Lemma execute_stage_sequence_witness :
  exists s',
    execute (NdArray [1; 8] [1; 2; 3; 4; 5; 6; 7; 8])
            (zynq_session [4; 0; 0; 2])
      = Ok (NdArray [1; 8] [1; 2; 3; 4; 5; 6; 7; 8]) s' /\
    obuf_packed_device (self s')
      = Some (Buffer 4100 [1; 2; 2] [33; 67; 101; 135] (Some true)) /\
    obuf_packed (self s') = Some (NdArray [1; 2; 2] [33; 67; 101; 135]).
Proof.
  destruct (execute_stage_sequence (NdArray [1; 8] [1; 2; 3; 4; 5; 6; 7; 8])
              (zynq_session [4; 0; 0; 2]))
    as ([fs fd] & packed & ib & ob & t & [us ud] & [ns nd] & s' & E & Hif &
        Hf & Hp & _ & _ & Eob & _ & Ed & Eh & Hof & Hu & Hon & Hr & _).
  - constructor.
    + reflexivity.
    + repeat constructor.
    + exists [1; 2; 4], (Buffer 4096 [1; 2; 2] [0; 0; 0; 0] (Some true)).
      repeat split; try reflexivity. repeat constructor; lia.
    + exists [1; 2; 4], [1; 8], (Buffer 4100 [1; 2; 2] [0; 0; 0; 0] (Some true)),
        (NdArray [1; 2; 2] [0; 0; 0; 0]).
      repeat split; try reflexivity. repeat constructor; lia.
    + left. split; [reflexivity|].
      exists 4, [0; 0], 2, []. repeat split; try reflexivity.
      * discriminate.
      * repeat constructor.
      * discriminate.
  - cbn [shape] in *.
    vm_compute in Hif. injection Hif as <-.
    vm_compute in Hf. injection Hf as <-.
    vm_compute in Hp. injection Hp as <-.
    vm_compute in Eob. injection Eob as <-.
    vm_compute in Hof. injection Hof as <-.
    vm_compute in Hu. injection Hu as <-.
    vm_compute in Hon. injection Hon as <-.
    vm_compute in Hr. injection Hr as <-.
    exists s'. split; [exact E|]. split; [exact Ed | exact Eh].
Defined.

(** C2, the claim as stated fails: an input of the expected normal shape
    does not take [execute] through the stages on a session that is not
    ready for it.  With a transfer outstanding on the handle-based backend
    the launch is refused after the upload; with a status register that
    never shows the done bit the wait does not return; with a descriptor
    whose folded input view has another element count than the normal one,
    fold raises; with a descriptor whose normal output view has another
    element count than the folded one, unfold raises after the transfer;
    with a descriptor whose packed input view is not the packing of the
    folded one, the copy to the device raises; with an element that the
    input datatype cannot represent, pack raises. *)
Lemma execute_stops_when_not_ready :
  let x := NdArray [1; 8] [1; 2; 3; 4; 5; 6; 7; 8] in
  (ishape_normal alveo_launched = Ok (shape x) alveo_launched /\
   exists s',
     execute x alveo_launched
       = Raise (AssertionError "Output DMA is already running") s' /\
     trace s' = trace alveo_launched ++
                [Call m_execute; Call m_fold_input; Call m_pack_input;
                 Call m_copy_input_data_to_device; Flush 4096;
                 Call m_execute_on_buffers]) /\
  (ishape_normal (zynq_session [4; 0; 0])
     = Ok (shape x) (zynq_session [4; 0; 0]) /\
   exists s', execute x (zynq_session [4; 0; 0]) = Stalled s') /\
  (exists s,
     init "finn.bit" "alveo" dict_inconsistent 1 (100 # 1) true
          "runtime_weights/" (ideal_board []) = Ok tt s /\
     ishape_normal s = Ok (shape x) s /\
     execute x s
       = Raise (ValueError "cannot reshape array")
               (State (self s) (hw s)
                      (trace s ++ [Call m_execute; Call m_fold_input]))) /\
  (exists s,
     init "finn.bit" "alveo" dict_inconsistent_output 1 (100 # 1) true
          "runtime_weights/" (ideal_board []) = Ok tt s /\
     ishape_normal s = Ok (shape x) s /\
     exists s',
       execute x s = Raise (ValueError "cannot reshape array") s' /\
       trace s' = trace s ++
                  [Call m_execute; Call m_fold_input; Call m_pack_input;
                   Call m_copy_input_data_to_device; Flush 4096;
                   Call m_execute_on_buffers;
                   DmaStart IDMA 4096 1; DmaStart ODMA 4100 1;
                   Call m_wait_until_finished; HandleWait 1;
                   Call m_copy_output_data_from_device; Invalidate 4100;
                   Call m_unpack_output; Call m_unfold_output]) /\
  (exists s,
     init "finn.bit" "alveo" dict_inconsistent_packed 1 (100 # 1) true
          "runtime_weights/" (ideal_board []) = Ok tt s /\
     ishape_normal s = Ok (shape x) s /\
     execute x s
       = Raise (ValueError "could not broadcast input array")
               (State (self s) (hw s)
                      (trace s ++ [Call m_execute; Call m_fold_input;
                                   Call m_pack_input;
                                   Call m_copy_input_data_to_device]))) /\
  (let y := NdArray [1; 8] [1; 2; 3; 4; 5; 6; 7; 16] in
   ishape_normal alveo_session = Ok (shape y) alveo_session /\
   execute y alveo_session
     = Raise (RangeError "value not representable in the datatype")
             (State (self alveo_session) (hw alveo_session)
                    (trace alveo_session ++
                     [Call m_execute; Call m_fold_input; Call m_pack_input]))).
Proof.
  cbv zeta. split; [|split; [|split; [|split; [|split]]]].
  - split; [reflexivity|].
    exists (final_state (execute (NdArray [1; 8] [1; 2; 3; 4; 5; 6; 7; 8])
                                 alveo_launched)).
    split; vm_compute; reflexivity.
  - split; [reflexivity|].
    exists (final_state (execute (NdArray [1; 8] [1; 2; 3; 4; 5; 6; 7; 8])
                                 (zynq_session [4; 0; 0]))).
    vm_compute. reflexivity.
  - exists (final_state
              (init "finn.bit" "alveo" dict_inconsistent 1 (100 # 1) true
                    "runtime_weights/" (ideal_board []))).
    split; [vm_compute; reflexivity|].
    split; vm_compute; reflexivity.
  - exists (final_state
              (init "finn.bit" "alveo" dict_inconsistent_output 1 (100 # 1)
                    true "runtime_weights/" (ideal_board []))).
    split; [vm_compute; reflexivity|].
    split; [vm_compute; reflexivity|].
    exists (final_state
              (execute (NdArray [1; 8] [1; 2; 3; 4; 5; 6; 7; 8])
                 (final_state
                    (init "finn.bit" "alveo" dict_inconsistent_output 1
                          (100 # 1) true "runtime_weights/"
                          (ideal_board []))))).
    split; vm_compute; reflexivity.
  - exists (final_state
              (init "finn.bit" "alveo" dict_inconsistent_packed 1 (100 # 1)
                    true "runtime_weights/" (ideal_board []))).
    split; [vm_compute; reflexivity|].
    split; vm_compute; reflexivity.
  - split; vm_compute; reflexivity.
Qed.

(** ** The batch-size setter and the constructor *)

Lemma bind_allocate {B : Type} (shp : list Z) (c : option bool)
    (k : buffer -> M B) (s : state) :
  Forall (fun d => 0 <= d) shp ->
  bind (allocate shp c) k s =
  k (Buffer (next_address (hw s)) shp (repeat 0 (Z.to_nat (prod_shape shp))) c)
    (State (self s)
           (set_next_address (next_address (hw s) + Z.max 1 (prod_shape shp))
                             (hw s))
           (trace s ++ [Allocate (next_address (hw s)) shp c])).
Proof.
  intros H. unfold allocate. rewrite (proj2 (forallb_nonneg shp) H).
  mrun. reflexivity.
Qed.

(** The setter succeeds whenever the packed shapes can be allocated: it
    drops the references it holds, allocates two fresh buffers and looks at
    nothing else. *)
Lemma set_batch_size_spec (n : Z) (s : state) (i0 o0 : Z) (it ot : list Z) :
  0 <= n ->
  io_ishape_packed (_io_shape_dict (self s)) = i0 :: it ->
  io_oshape_packed (_io_shape_dict (self s)) = o0 :: ot ->
  Forall (fun d => 0 <= d) it ->
  Forall (fun d => 0 <= d) ot ->
  exists s' ib ob,
    set_batch_size n s = Ok tt s' /\
    _batch_size (self s') = n /\
    ibuf_packed_device (self s') = Some ib /\ buf_shape ib = n :: it /\
    obuf_packed_device (self s') = Some ob /\ buf_shape ob = n :: ot /\
    obuf_packed (self s')
      = Some (NdArray (n :: ot) (repeat 0 (Z.to_nat (prod_shape (n :: ot))))) /\
    odma_handle (self s') = odma_handle (self s) /\
    platform (self s') = platform (self s) /\
    _io_shape_dict (self s') = _io_shape_dict (self s) /\
    odma_status (hw s') = odma_status (hw s) /\
    weight_files (hw s') = weight_files (hw s) /\
    trace s' = trace s ++
               Call m_batch_size_setter
               :: drop_events (ibuf_packed_device (self s))
               ++ drop_events (obuf_packed_device (self s))
               ++ [Allocate (device_address ib) (n :: it)
                            (cacheable_for (platform (self s)));
                   Allocate (device_address ob) (n :: ot)
                            (cacheable_for (platform (self s)))].
Proof.
  intros Hn Hi Ho Hit Hot.
  assert (Hni : Forall (fun d => 0 <= d) (n :: it)) by (constructor; assumption).
  assert (Hno : Forall (fun d => 0 <= d) (n :: ot)) by (constructor; assumption).
  destruct s as [o b t]. cbn [self hw trace] in *.
  unfold set_batch_size, cacheable_for. mrun.
  cbn [ibuf_packed_device obuf_packed_device platform set__batch_size].
  destruct (ibuf_packed_device o) as [bi|], (obuf_packed_device o) as [bo|];
    mrun;
    (destruct (platform o =? "alveo")%string;
     mrun;
     cbn [_batch_size _io_shape_dict set__batch_size set_ibuf_packed_device
          set_obuf_packed_device];
     rewrite Hi; cbn [with_batch]; mrun;
     rewrite (bind_allocate _ _ _ _ Hni); cbn [self hw trace]; mrun;
     cbn [_batch_size _io_shape_dict set__batch_size set_ibuf_packed_device
          set_obuf_packed_device];
     rewrite Ho; cbn [with_batch]; mrun;
     rewrite (bind_allocate _ _ _ _ Hno); cbn [self hw trace]; mrun;
     cbn [obuf_packed_device set_obuf_packed_device]; mrun;
     eexists; eexists; eexists; (split; [reflexivity|]);
     cbn [self hw trace buf_shape device_address drop_events app];
     repeat rewrite <- app_assoc; cbn [app];
     repeat split; reflexivity).
Qed.

(** C4 (as the code has it): setting a batch size makes no idleness check.
    Whatever the engine is doing, provided the packed shapes can be
    allocated, the setter returns; it reads no status register and leaves
    the transfer handle as it is; it drops the references to the old device
    buffers before it allocates the new ones, whose leading dimension is
    the new batch size. *)
Theorem set_batch_size_reallocates (n : Z) (s : state) (i0 o0 : Z)
    (it ot : list Z) :
  0 <= n ->
  io_ishape_packed (_io_shape_dict (self s)) = i0 :: it ->
  io_oshape_packed (_io_shape_dict (self s)) = o0 :: ot ->
  Forall (fun d => 0 <= d) it ->
  Forall (fun d => 0 <= d) ot ->
  exists s' ib ob,
    set_batch_size n s = Ok tt s' /\
    _batch_size (self s') = n /\
    ibuf_packed_device (self s') = Some ib /\ buf_shape ib = n :: it /\
    obuf_packed_device (self s') = Some ob /\ buf_shape ob = n :: ot /\
    odma_handle (self s') = odma_handle (self s) /\
    odma_status (hw s') = odma_status (hw s) /\
    trace s' = trace s ++
               Call m_batch_size_setter
               :: drop_events (ibuf_packed_device (self s))
               ++ drop_events (obuf_packed_device (self s))
               ++ [Allocate (device_address ib) (n :: it)
                            (cacheable_for (platform (self s)));
                   Allocate (device_address ob) (n :: ot)
                            (cacheable_for (platform (self s)))].
Proof.
  intros Hn Hi Ho Hit Hot.
  destruct (set_batch_size_spec n s i0 o0 it ot Hn Hi Ho Hit Hot)
    as (s' & ib & ob & E & Hb & Ei & Si & Eo & So & _ & Hh & _ & _ & Hs & _ & Ht).
  exists s', ib, ob. repeat split; assumption.
Qed.

Lemma set_batch_size_reallocates_witness :
  exists s' ib ob,
    set_batch_size 2 alveo_launched = Ok tt s' /\
    _batch_size (self s') = 2 /\
    ibuf_packed_device (self s') = Some ib /\ buf_shape ib = [2; 2; 2] /\
    obuf_packed_device (self s') = Some ob /\ buf_shape ob = [2; 2; 2] /\
    odma_handle (self s') = odma_handle (self alveo_launched) /\
    odma_status (hw s') = odma_status (hw alveo_launched) /\
    trace s' = trace alveo_launched ++
               Call m_batch_size_setter
               :: drop_events (ibuf_packed_device (self alveo_launched))
               ++ drop_events (obuf_packed_device (self alveo_launched))
               ++ [Allocate (device_address ib) [2; 2; 2]
                            (cacheable_for (platform (self alveo_launched)));
                   Allocate (device_address ob) [2; 2; 2]
                            (cacheable_for (platform (self alveo_launched)))].
Proof.
  apply (set_batch_size_reallocates 2 alveo_launched 1 1 [2; 2] [2; 2]).
  - lia.
  - reflexivity.
  - reflexivity.
  - repeat constructor; lia.
  - repeat constructor; lia.
Defined.

(** C4, the claim as stated fails: on the handle-based backend, with the
    handle of a launched transfer still outstanding, the setter returns and
    replaces both device buffers. *)
Lemma set_batch_size_while_in_flight :
  execute_on_buffers true None alveo_session = Ok tt alveo_launched /\
  odma_handle (self alveo_launched) = Some 1%nat /\
  exists s',
    set_batch_size 2 alveo_launched = Ok tt s' /\
    odma_handle (self s') = Some 1%nat /\
    ibuf_packed_device (self alveo_launched)
      = Some (Buffer 4096 [1; 2; 2] [0; 0; 0; 0] None) /\
    ibuf_packed_device (self s')
      = Some (Buffer 4104 [2; 2; 2] [0; 0; 0; 0; 0; 0; 0; 0] None) /\
    ~ In (RegRead ODMA 0 0) (trace s').
Proof.
  split; [vm_compute; reflexivity|]. split; [reflexivity|].
  exists (final_state (set_batch_size 2 alveo_launched)).
  split; [vm_compute; reflexivity|].
  split; [vm_compute; reflexivity|].
  split; [reflexivity|].
  split; [vm_compute; reflexivity|].
  vm_compute. intuition discriminate.
Qed.




(** ** Examples *)

Example reshape_infers_dimension :
  reshape (NdArray [1; 8] [1; 2; 3; 4; 5; 6; 7; 8]) [-1; 2; 2]
  = inr (NdArray [2; 2; 2] [1; 2; 3; 4; 5; 6; 7; 8]).
Proof. reflexivity. Qed.

Example reshape_two_unknown :
  reshape (NdArray [1; 8] [1; 2; 3; 4; 5; 6; 7; 8]) [-1; -1; 2]
  = inl (ValueError "can only specify one unknown dimension").
Proof. reflexivity. Qed.

Example reshape_not_dividing :
  reshape (NdArray [1; 8] [1; 2; 3; 4; 5; 6; 7; 8]) [-1; 3]
  = inl (ValueError "cannot reshape array").
Proof. reflexivity. Qed.

Example copyto_broadcasts_row :
  copyto [1; 2; 2] (NdArray [2] [7; 9]) = inr [7; 9; 7; 9].
Proof. reflexivity. Qed.

Example copyto_broadcasts_column :
  copyto [1; 2; 2] (NdArray [2; 1] [7; 9]) = inr [7; 7; 9; 9].
Proof. reflexivity. Qed.

Example copyto_strips_unit_dimensions :
  copyto [2; 2] (NdArray [1; 1; 2; 2] [1; 2; 3; 4]) = inr [1; 2; 3; 4].
Proof. reflexivity. Qed.

Example copyto_not_broadcastable :
  copyto [1; 2; 2] (NdArray [3] [1; 2; 3])
  = inl (ValueError "could not broadcast input array").
Proof. reflexivity. Qed.

Example pack_fixture :
  finnpy_to_packed_bytearray (NdArray [1; 2; 4] [1; 2; 3; 4; 5; 6; 7; 8])
    (DataType 4 false) true true true
  = inr (NdArray [1; 2; 2] [33; 67; 101; 135]).
Proof. reflexivity. Qed.

Example unpack_fixture :
  packed_bytearray_to_finnpy (NdArray [1; 2; 2] [33; 67; 101; 135])
    (DataType 4 false) [1; 2; 4] true true true
  = inr (NdArray [1; 2; 4] [1; 2; 3; 4; 5; 6; 7; 8]).
Proof. reflexivity. Qed.

Example pack_signed_3bit :
  finnpy_to_packed_bytearray (NdArray [1; 3] [-4; 3; -1])
    (DataType 3 true) true true true
  = inr (NdArray [1; 2] [0; 238]).
Proof. reflexivity. Qed.

Example pack_out_of_range :
  finnpy_to_packed_bytearray (NdArray [1; 2] [3; 16])
    (DataType 4 false) true true true
  = inl (RangeError "value not representable in the datatype").
Proof. reflexivity. Qed.

Example init_zynq (status : list Z) :
  init "finn.bit" "zynq-iodma" dict4 1 (100 # 1) true "runtime_weights/"
       (ideal_board status)
  = Ok tt (zynq_session status).
Proof. vm_compute. reflexivity. Qed.

Example init_alveo :
  init "finn.bit" "alveo" dict4 1 (100 # 1) true "runtime_weights/"
       (ideal_board [])
  = Ok tt alveo_session.
Proof. vm_compute. reflexivity. Qed.

Example init_unknown_platform :
  exists s,
    init "finn.bit" "versal" dict4 1 (100 # 1) true "runtime_weights/"
         (ideal_board [])
    = Raise (ValueError "Supported platforms are zynq-iodma alveo") s.
Proof. eexists. vm_compute. reflexivity. Qed.

Example execute_zynq :
  exists s',
    execute (NdArray [1; 8] [1; 2; 3; 4; 5; 6; 7; 8])
            (zynq_session [4; 0; 0; 2])
    = Ok (NdArray [1; 8] [1; 2; 3; 4; 5; 6; 7; 8]) s' /\
    trace s' =
    trace (zynq_session []) ++
    [Call m_execute; Call m_fold_input; Call m_pack_input;
     Call m_copy_input_data_to_device; Flush 4096;
     Call m_execute_on_buffers; RegRead ODMA 0 4;
     RegWrite IDMA 16 4096; RegWrite IDMA 28 1;
     RegWrite ODMA 16 4100; RegWrite ODMA 28 1;
     RegWrite IDMA 0 1; RegWrite ODMA 0 1;
     Call m_wait_until_finished;
     RegRead ODMA 0 0; RegRead ODMA 0 0; RegRead ODMA 0 2;
     Call m_copy_output_data_from_device; Invalidate 4100;
     Call m_unpack_output; Call m_unfold_output].
Proof.
  exists (final_state (execute (NdArray [1; 8] [1; 2; 3; 4; 5; 6; 7; 8])
                               (zynq_session [4; 0; 0; 2]))).
  split; vm_compute; reflexivity.
Qed.

(** * Further properties of the driver *)

(** ** Runtime weights *)

Lemma write_layers_app (verify : bool) (pre rest : list (Z * list Z))
    (s : state) :
  write_layers verify (pre ++ rest) s
  = (write_layers verify pre ;; write_layers verify rest) s.
Proof.
  revert s. induction pre as [|[l w] pre IH]; intros s; cbn [app write_layers].
  - reflexivity.
  - mrun. apply bind_ext. intros [] s1. apply IH.
Qed.

Lemma write_layers_ok (verify : bool) (rt_weight_dict : list (Z * list Z)) :
  forall s : state,
    (verify = true ->
     Forall (fun e => has_interface (hw s) e = true -> reads_back (hw s) e)
            rt_weight_dict) ->
    write_layers verify rt_weight_dict s
    = Ok tt (State (self s) (hw s)
                   (trace s ++ weight_writes (hw s) rt_weight_dict)).
Proof.
  induction rt_weight_dict as [|[l w] rest IH]; intros s Hrb.
  - cbn. rewrite app_nil_r. destruct s; reflexivity.
  - cbn [write_layers]. mrun.
    assert (Hrest : verify = true ->
              Forall (fun e => has_interface (hw s) e = true ->
                               reads_back (hw s) e) rest).
    { intros Hv. specialize (Hrb Hv). inversion Hrb; assumption. }
    unfold weight_writes. cbn [filter]. unfold has_interface at 1. cbn [fst snd].
    destruct (existsb (Z.eqb l) (ip_dict (hw s))) eqn:Ei.
    + mrun. destruct verify.
      * assert (Hw : mmio_readback (hw s) l w = w).
        { specialize (Hrb eq_refl). inversion Hrb as [|? ? H1 _]; subst.
          apply H1. unfold has_interface. exact Ei. }
        rewrite Hw, ints_eqb_refl. mrun.
        rewrite IH by exact Hrest. cbn [self hw trace map].
        rewrite <- app_assoc. reflexivity.
      * mrun. rewrite IH by exact Hrest. cbn [self hw trace map].
        rewrite <- app_assoc. reflexivity.
    + mrun. rewrite IH by exact Hrest. reflexivity.
Qed.

(** X9: with a weight directory, [load_runtime_weights] writes the words of
    exactly those layers of [rt_weight_dict] that have an [s_axilite]
    interface, in dictionary order, skipping the others silently (with
    [verify], provided every written layer reads back what was written);
    then, if [flush_accel] is set, it runs one blocking launch, even when
    no layer was written, and otherwise it touches the accelerator no
    further. *)
Theorem load_runtime_weights_writes_then_flushes (flush_accel verify : bool)
    (rt_weight_dict : list (Z * list Z)) (s : state) :
  weight_files (hw s) = Some rt_weight_dict ->
  (verify = true ->
   Forall (fun e => has_interface (hw s) e = true -> reads_back (hw s) e)
          rt_weight_dict) ->
  let written :=
    State (self s) (hw s)
          (trace s ++ Call m_load_runtime_weights
                      :: weight_writes (hw s) rt_weight_dict) in
  load_runtime_weights flush_accel verify s
  = if flush_accel then execute_on_buffers false None written
    else Ok tt written.
Proof.
  intros Hf Hrb written. unfold load_runtime_weights. mrun. rewrite Hf.
  unfold bind at 1. rewrite write_layers_ok by exact Hrb.
  cbn [self hw trace]. subst written. rewrite <- app_assoc. cbn [app].
  destruct flush_accel; reflexivity.
Qed.

Lemma load_runtime_weights_writes_then_flushes_witness :
  load_runtime_weights false false
    (State (self (zynq_session [])) (weights_board []) [])
  = Ok tt (State (self (zynq_session [])) (weights_board [])
                 [Call m_load_runtime_weights; WriteMM 0 [1; 2];
                  WriteMM 2 [4; 5]]).
Proof.
  apply (load_runtime_weights_writes_then_flushes false false
           [(0, [1; 2]); (1, [3]); (2, [4; 5])]
           (State (self (zynq_session [])) (weights_board []) [])).
  - reflexivity.
  - discriminate.
Defined.

(** X10: with [verify], the first written layer whose read-back differs
    from the words written fails the assertion: the layers before it and
    that layer have been written, the layers after it have not, and the
    accelerator is not flushed. *)
Theorem load_runtime_weights_verify_failure (flush_accel : bool)
    (pre post : list (Z * list Z)) (layer_ind : Z) (layer_w : list Z)
    (s : state) :
  weight_files (hw s) = Some (pre ++ (layer_ind, layer_w) :: post) ->
  Forall (fun e => has_interface (hw s) e = true -> reads_back (hw s) e) pre ->
  has_interface (hw s) (layer_ind, layer_w) = true ->
  mmio_readback (hw s) layer_ind layer_w <> layer_w ->
  load_runtime_weights flush_accel true s
  = Raise (AssertionError "")
          (State (self s) (hw s)
                 (trace s ++ Call m_load_runtime_weights
                             :: weight_writes (hw s) pre
                             ++ [WriteMM layer_ind layer_w])).
Proof.
  intros Hf Hpre Hi Hneq. unfold load_runtime_weights. mrun. rewrite Hf.
  unfold bind at 1. rewrite write_layers_app. unfold bind at 1.
  rewrite write_layers_ok by (intros _; exact Hpre).
  cbn [write_layers self hw trace]. mrun.
  unfold has_interface in Hi. cbn [fst] in Hi. rewrite Hi. mrun.
  rewrite (ints_eqb_neq _ _ (fun E => Hneq (eq_sym E))). mrun.
  repeat rewrite <- app_assoc. reflexivity.
Qed.

Lemma load_runtime_weights_verify_failure_witness :
  load_runtime_weights true true
    (State (self (zynq_session [])) (weights_board [4; 2]) [])
  = Raise (AssertionError "")
          (State (self (zynq_session [])) (weights_board [4; 2])
                 [Call m_load_runtime_weights; WriteMM 0 [1; 2];
                  WriteMM 2 [4; 5]]).
Proof.
  apply (load_runtime_weights_verify_failure true
           [(0, [1; 2]); (1, [3])] [] 2 [4; 5]
           (State (self (zynq_session [])) (weights_board [4; 2]) [])).
  - reflexivity.
  - repeat constructor.
  - reflexivity.
  - discriminate.
Defined.

(** ** The batch-size setter *)

Ltac setter_simpl :=
  cbn [self hw trace _batch_size _io_shape_dict platform odma_handle
       ibuf_packed_device obuf_packed_device obuf_packed
       set__batch_size set_ibuf_packed_device set_obuf_packed_device
       set_obuf_packed set_odma_handle].

(** One [allocate] of the setter: either the shape property or the
    allocation fails, or the run goes on with the fresh buffer. *)
Ltac setter_allocate :=
  mrun; setter_simpl;
  match goal with
  | |- context [lift (with_batch ?n ?t)] =>
      let E := fresh "Eshape" in
      destruct (with_batch n t) eqn:E; mrun
  end;
  [ | unfold allocate at 1;
      match goal with
      | |- context [forallb ?f ?l] =>
          let F := fresh "Fdims" in destruct (forallb f l) eqn:F; mrun
      end ].

Lemma set_batch_size_inv (n : Z) (s s' : state) :
  set_batch_size n s = Ok tt s' ->
  _batch_size (self s') = n /\
  _io_shape_dict (self s') = _io_shape_dict (self s) /\
  platform (self s') = platform (self s) /\
  odma_handle (self s') = odma_handle (self s) /\
  buffers_match s'.
Proof.
  destruct s as [o b t]. unfold set_batch_size. mrun. setter_simpl.
  destruct (ibuf_packed_device o), (obuf_packed_device o); mrun;
    (destruct (platform o =? "alveo")%string;
     (setter_allocate; [discriminate | | discriminate]);
     (setter_allocate; [discriminate | | discriminate]);
     setter_simpl; mrun; unfold modify_self; intros [= <-]; setter_simpl;
     repeat (split; [reflexivity|]);
     unfold buffers_match; setter_simpl;
     eexists _, _, _; repeat (split; [reflexivity|]);
     unfold ishape_packed, oshape_packed, batch_size; mrun; setter_simpl;
     rewrite ?Eshape, ?Eshape0; repeat split; reflexivity).
Qed.

Lemma with_batch_head (n : Z) (t v : list Z) :
  with_batch n t = inr v -> hd_error v = Some n.
Proof. destruct t; cbn; [discriminate | intros [= <-]; reflexivity]. Qed.

(** X1: whenever the batch-size setter returns, the getter gives the new
    batch size, both device buffers and the host staging buffer exist with
    the shapes the packed-shape properties announce, and the leading
    dimension of all three is the new batch size. *)
Theorem set_batch_size_establishes (n : Z) (s s' : state) :
  set_batch_size n s = Ok tt s' ->
  batch_size s' = Ok n s' /\
  buffers_match s' /\
  exists ib ob host,
    ibuf_packed_device (self s') = Some ib /\
    obuf_packed_device (self s') = Some ob /\
    obuf_packed (self s') = Some host /\
    hd_error (buf_shape ib) = Some n /\
    hd_error (buf_shape ob) = Some n /\
    hd_error (shape host) = Some n.
Proof.
  intros H. apply set_batch_size_inv in H.
  destruct H as (Hb & _ & _ & _ & Hm). split; [|split; [exact Hm|]].
  - unfold batch_size. mrun. rewrite Hb. reflexivity.
  - destruct Hm as (ib & ob & host & Ei & Eo & Eh & Hi & Ho & Hs).
    exists ib, ob, host. repeat (split; [assumption|]).
    apply shape_property_ok in Hi. apply shape_property_ok in Ho.
    rewrite Hb in Hi, Ho. rewrite Hs.
    repeat split; eapply with_batch_head; eassumption.
Qed.

Lemma set_batch_size_establishes_witness :
  batch_size (final_state (set_batch_size 2 alveo_launched))
  = Ok 2 (final_state (set_batch_size 2 alveo_launched)).
Proof.
  refine (proj1 (set_batch_size_establishes 2 alveo_launched
                   (final_state (set_batch_size 2 alveo_launched)) _)).
  vm_compute. reflexivity.
Defined.

(** X2: the setter is not rolled back when it raises (a shape property or an
    allocation fails): the new batch size is already stored, the output
    device buffer attribute is [None], the host staging buffer is still the
    old one, and the reference to the old input buffer has been dropped. *)
Theorem set_batch_size_failure_not_rolled_back (n : Z) (e : exn)
    (s s' : state) :
  set_batch_size n s = Raise e s' ->
  _batch_size (self s') = n /\
  obuf_packed_device (self s') = None /\
  obuf_packed (self s') = obuf_packed (self s) /\
  (forall b, ibuf_packed_device (self s) = Some b ->
             In (DropRef (device_address b)) (trace s')).
Proof.
  destruct s as [o b t]. unfold set_batch_size. mrun. setter_simpl.
  destruct (ibuf_packed_device o) as [bi|] eqn:Ei,
           (obuf_packed_device o) as [bo|] eqn:Eo;
    mrun;
    (destruct (platform o =? "alveo")%string;
     (setter_allocate;
      [ unfold raise; intros [= <- <-]
      | setter_allocate;
        [ unfold raise; intros [= <- <-]
        | setter_simpl; mrun; unfold modify_self; discriminate
        | unfold raise; intros [= <- <-] ]
      | unfold raise; intros [= <- <-] ]);
     setter_simpl; rewrite ?Eo; repeat (split; [reflexivity|]);
     intros b0 E0; try discriminate; injection E0 as <-;
     repeat rewrite in_app_iff; cbn; tauto).
Qed.

Lemma set_batch_size_failure_not_rolled_back_witness :
  _batch_size (self (final_state (set_batch_size (-1) (zynq_session []))))
  = -1.
Proof.
  refine (proj1 (set_batch_size_failure_not_rolled_back (-1)
                   (ValueError "negative dimensions are not allowed")
                   (zynq_session [])
                   (final_state (set_batch_size (-1) (zynq_session []))) _)).
  vm_compute. reflexivity.
Defined.

(** ** Waiting twice *)

(** X11: on the handle-based backend a blocking launch leaves no handle
    behind, so a [wait_until_finished] after it fails the assertion
    "No odma_handle to wait on" without waiting on anything. *)
Theorem wait_after_blocking_launch_fails (bs : option Z) (s s' : state) :
  platform (self s) = "alveo" ->
  execute_on_buffers false bs s = Ok tt s' ->
  odma_handle (self s') = None /\
  wait_until_finished s'
  = Raise (AssertionError "No odma_handle to wait on")
          (State (self s') (hw s') (trace s' ++ [Call m_wait_until_finished])).
Proof.
  intros Ha H. rewrite execute_on_buffers_blocking in H. unfold bind in H.
  destruct (execute_on_buffers true bs s) as [[] s1| |] eqn:E1;
    try discriminate.
  apply execute_on_buffers_launch_inv in E1.
  destruct E1 as (_ & _ & _ & P1 & _).
  apply wait_until_finished_inv in H.
  destruct H as (_ & _ & _ & P2 & _ & _ & _ & Hh).
  rewrite P1, Ha in *. specialize (Hh eq_refl). split; [exact Hh|].
  unfold wait_until_finished. mrun. rewrite P2, Hh. reflexivity.
Qed.

Lemma wait_after_blocking_launch_fails_witness :
  odma_handle
    (self (final_state (execute_on_buffers false None alveo_session))) = None.
Proof.
  refine (proj1 (wait_after_blocking_launch_fails None alveo_session
                   (final_state (execute_on_buffers false None alveo_session))
                   _ _)).
  - reflexivity.
  - vm_compute. reflexivity.
Defined.

(** ** The constructor *)



(** ** What [execute] keeps *)

Lemma same_buffer_refl (b : option buffer) : same_buffer b b.
Proof. intros x E. exists x. repeat split; exact E. Qed.

Lemma same_buffer_trans (a b c : option buffer) :
  same_buffer a b -> same_buffer b c -> same_buffer a c.
Proof.
  intros H1 H2 x E. destruct (H1 x E) as (y & Ey & A1 & S1).
  destruct (H2 y Ey) as (z & Ez & A2 & S2).
  exists z. repeat split; congruence.
Qed.

Lemma ishape_packed_transfer (s s' : state) (v : list Z) :
  _batch_size (self s') = _batch_size (self s) ->
  _io_shape_dict (self s') = _io_shape_dict (self s) ->
  ishape_packed s = Ok v s -> ishape_packed s' = Ok v s'.
Proof.
  intros Hb Hd H. apply shape_property_ok in H.
  unfold ishape_packed, batch_size. mrun. rewrite Hb, Hd, H. reflexivity.
Qed.

Lemma oshape_packed_transfer (s s' : state) (v : list Z) :
  _batch_size (self s') = _batch_size (self s) ->
  _io_shape_dict (self s') = _io_shape_dict (self s) ->
  oshape_packed s = Ok v s -> oshape_packed s' = Ok v s'.
Proof.
  intros Hb Hd H. apply shape_property_ok in H.
  unfold oshape_packed, batch_size. mrun. rewrite Hb, Hd, H. reflexivity.
Qed.

(** A blocking launch that returns leaves the configuration and the
    buffers in place, and the handle-based engine idle. *)
Lemma execute_on_buffers_wait_frame (bs : option Z) (s s' : state) :
  execute_on_buffers false bs s = Ok tt s' ->
  same_config s s' /\
  ibuf_packed_device (self s') = ibuf_packed_device (self s) /\
  same_buffer (obuf_packed_device (self s)) (obuf_packed_device (self s')) /\
  obuf_packed (self s') = obuf_packed (self s) /\
  (platform (self s) = "alveo" -> odma_handle (self s') = None).
Proof.
  rewrite execute_on_buffers_blocking. unfold bind.
  destruct (execute_on_buffers true bs s) as [[] s1| |] eqn:E1; try discriminate.
  intros E2.
  apply execute_on_buffers_launch_inv in E1.
  destruct E1 as (_ & B1 & D1 & P1 & I1 & O1 & H1 & _ & _).
  apply wait_until_finished_inv in E2.
  destruct E2 as (_ & B2 & D2 & P2 & I2 & H2 & O2 & Hh).
  repeat split; try congruence.
  - intros ob Eo. rewrite <- O1 in Eo.
    destruct (O2 ob Eo) as (ob' & E' & S' & A'). exists ob'. auto.
  - intros Ha. apply Hh. congruence.
Qed.

(** Configuration and buffers in place, host buffer shaped like the output
    device buffer: the invariant carries over. *)
Lemma buffers_match_frame (s s' : state) :
  same_config s s' ->
  same_buffer (ibuf_packed_device (self s)) (ibuf_packed_device (self s')) ->
  same_buffer (obuf_packed_device (self s)) (obuf_packed_device (self s')) ->
  (forall ob, obuf_packed_device (self s') = Some ob ->
     exists host, obuf_packed (self s') = Some host /\
                  shape host = buf_shape ob) ->
  buffers_match s -> buffers_match s'.
Proof.
  intros (B & D & _) Hin Hout Hhost
         (ib0 & ob0 & host0 & Ei0 & Eo0 & Eh0 & Hip & Hop & Hhs).
  destruct (Hin ib0 Ei0) as (ib' & Eib' & _ & Sib').
  destruct (Hout ob0 Eo0) as (ob' & Eob' & _ & Sob').
  destruct (Hhost ob' Eob') as (host' & Eh' & Sh').
  exists ib', ob', host'.
  split; [exact Eib'|]. split; [exact Eob'|]. split; [exact Eh'|].
  rewrite Sib', Sob'. split; [|split].
  - apply (ishape_packed_transfer s); assumption.
  - apply (oshape_packed_transfer s); assumption.
  - rewrite Sh'. exact Sob'.
Qed.

(** What a run of [execute] that returns leaves in place. *)
Lemma execute_frame (x out : ndarray) (s s' : state) :
  execute x s = Ok out s' ->
  same_config s s' /\
  same_buffer (ibuf_packed_device (self s)) (ibuf_packed_device (self s')) /\
  same_buffer (obuf_packed_device (self s)) (obuf_packed_device (self s')) /\
  (exists host host', obuf_packed (self s) = Some host /\
                      obuf_packed (self s') = Some host' /\
                      shape host' = shape host) /\
  (platform (self s) = "alveo" -> odma_handle (self s') = None).
Proof.
  unfold execute. mrun.
  unfold bind at 1.
  destruct (fold_input x _) as [folded s1| |] eqn:E1; try discriminate.
  apply fold_input_inv in E1. destruct E1 as (-> & _).
  cbn [self hw trace].
  unfold bind at 1.
  destruct (pack_input folded _) as [packed s2| |] eqn:E2; try discriminate.
  apply pack_input_inv in E2. destruct E2 as (-> & _). cbn [self hw trace] in *.
  unfold bind at 1.
  destruct (copy_input_data_to_device packed _) as [[] s3| |] eqn:E3;
    try discriminate.
  apply copy_input_data_to_device_inv in E3.
  destruct E3 as (ib & bytes & Eib & Hcopy & ->). cbn [self hw trace] in *.
  unfold bind at 1.
  destruct (execute_on_buffers false None _) as [[] s5| |] eqn:E4;
    try discriminate.
  apply execute_on_buffers_wait_frame in E4.
  destruct E4 as ((B4 & D4 & P4) & I4 & O4 & H4 & Hh). cbn [self hw trace] in *.
  unfold bind at 1.
  destruct (copy_output_data_from_device s5) as [[] s6| |] eqn:E6;
    try discriminate.
  apply copy_output_data_from_device_inv in E6.
  destruct E6 as (ob & dst & received & Eob & Edst & Hos & ->).
  mrun. cbn [obuf_packed set_obuf_packed].
  unfold bind at 1.
  destruct (unpack_output _ _) as [unpacked s7| |] eqn:E7; try discriminate.
  apply unpack_output_inv in E7. destruct E7 as (-> & _).
  cbn [self hw trace] in *.
  intros E8. apply unfold_output_inv in E8. destruct E8 as (-> & _).
  cbn [self hw trace _batch_size _io_shape_dict platform odma_handle
       ibuf_packed_device obuf_packed_device obuf_packed
       set_ibuf_packed_device set_obuf_packed] in *.
  split; [repeat split; assumption|].
  split; [|split; [exact O4|split; [|exact Hh]]].
  - intros b0 E0. rewrite Eib in E0. injection E0 as <-.
    rewrite I4. eexists. repeat split; reflexivity.
  - exists dst. eexists. split; [congruence|].
    split; reflexivity.
Qed.

(** X5: a run of [execute] that returns leaves batch size, descriptor and
    platform as they were and both device buffers at their addresses and
    shapes; buffers that matched the packed shapes still do; on the
    handle-based backend no handle is outstanding afterwards. *)
Theorem execute_keeps_session (x out : ndarray) (s s' : state) :
  execute x s = Ok out s' ->
  same_config s s' /\
  same_buffer (ibuf_packed_device (self s)) (ibuf_packed_device (self s')) /\
  same_buffer (obuf_packed_device (self s)) (obuf_packed_device (self s')) /\
  (buffers_match s -> buffers_match s') /\
  (platform (self s) = "alveo" -> odma_handle (self s') = None).
Proof.
  intros H. apply execute_frame in H.
  destruct H as (Hc & Hi & Ho & (host & host' & Eh & Eh' & Hs) & Ha).
  repeat (split; [assumption|]). split; [|exact Ha].
  intros Hm. apply (buffers_match_frame s); try assumption.
  destruct Hm as (ib0 & ob0 & host0 & _ & Eo0 & Eh0 & _ & _ & Hhs).
  intros ob' Eob'. destruct (Ho ob0 Eo0) as (ob1 & E1 & _ & S1).
  rewrite Eob' in E1. injection E1 as <-.
  exists host'. split; [exact Eh'|]. congruence.
Qed.

Lemma execute_keeps_session_witness :
  same_config alveo_session
    (final_state (execute (NdArray [1; 8] [1; 2; 3; 4; 5; 6; 7; 8])
                          alveo_session)).
Proof.
  refine (proj1 (execute_keeps_session
                   (NdArray [1; 8] [1; 2; 3; 4; 5; 6; 7; 8])
                   (NdArray [1; 8] [1; 2; 3; 4; 5; 6; 7; 8])
                   alveo_session
                   (final_state (execute (NdArray [1; 8] [1; 2; 3; 4; 5; 6; 7; 8])
                                         alveo_session)) _)).
  vm_compute. reflexivity.
Defined.

(** ** From construction to execution *)

Ltac setter_simpl_in H :=
  cbn [self hw trace _batch_size _io_shape_dict platform odma_handle
       ibuf_packed_device obuf_packed_device obuf_packed
       set__batch_size set_ibuf_packed_device set_obuf_packed_device
       set_obuf_packed set_odma_handle] in H.

Lemma write_layers_inv (verify : bool) (rt_weight_dict : list (Z * list Z)) :
  forall s s' : state,
    write_layers verify rt_weight_dict s = Ok tt s' ->
    self s' = self s /\ hw s' = hw s.
Proof.
  induction rt_weight_dict as [|[l w] rest IH]; intros s s'; cbn [write_layers].
  - intros [= <-]. split; reflexivity.
  - mrun. destruct (existsb (Z.eqb l) (ip_dict (hw s))); mrun.
    + destruct verify.
      * destruct (ints_eqb w (mmio_readback (hw s) l w)); mrun;
          [|discriminate].
        intros H. apply IH in H. exact H.
      * mrun. intros H. apply IH in H. exact H.
    + intros H. apply IH in H. exact H.
Qed.

Lemma buffers_match_kept (s s' : state) :
  same_config s s' ->
  same_buffer (ibuf_packed_device (self s)) (ibuf_packed_device (self s')) ->
  same_buffer (obuf_packed_device (self s)) (obuf_packed_device (self s')) ->
  obuf_packed (self s') = obuf_packed (self s) ->
  buffers_match s -> buffers_match s'.
Proof.
  intros Hc Hin Hout Hhost Hm.
  apply (buffers_match_frame s); try assumption.
  destruct Hm as (ib0 & ob0 & host0 & _ & Eo0 & Eh0 & _ & _ & Hhs).
  intros ob' Eob'. destruct (Hout ob0 Eo0) as (ob1 & E1 & _ & S1).
  rewrite Eob' in E1. injection E1 as <-.
  exists host0. split; [congruence | congruence].
Qed.

Lemma load_runtime_weights_inv (flush_accel verify : bool) (s s' : state) :
  load_runtime_weights flush_accel verify s = Ok tt s' ->
  same_config s s' /\
  same_buffer (ibuf_packed_device (self s)) (ibuf_packed_device (self s')) /\
  same_buffer (obuf_packed_device (self s)) (obuf_packed_device (self s')) /\
  obuf_packed (self s') = obuf_packed (self s).
Proof.
  unfold load_runtime_weights. mrun.
  destruct (weight_files (hw s)) as [dict|].
  - unfold bind at 1.
    destruct (write_layers verify dict _) as [[] s1| |] eqn:E1;
      try discriminate.
    apply write_layers_inv in E1. destruct E1 as (Hs & _). cbn [self] in Hs.
    destruct flush_accel.
    + intros E2. apply execute_on_buffers_wait_frame in E2.
      destruct E2 as (Hc & I2 & O2 & H2 & _). unfold same_config in *.
      rewrite Hs in *.
      split; [exact Hc|]. split; [|split; [exact O2 | exact H2]].
      rewrite I2. apply same_buffer_refl.
    + intros [= <-]. unfold same_config. rewrite Hs.
      repeat split; apply same_buffer_refl.
  - intros [= <-]. unfold same_config. cbn [self].
    repeat split; apply same_buffer_refl.
Qed.

(** A session the constructor returns has the configuration it was given
    and buffers that match it. *)
Lemma init_inv (bitfile_name platform_ : string) (dict : io_shape_dict)
    (n : Z) (fclk : Q) (download : bool) (weight_dir : string) (b : board)
    (s : state) :
  init bitfile_name platform_ dict n fclk download weight_dir b = Ok tt s ->
  _io_shape_dict (self s) = dict /\
  _batch_size (self s) = n /\
  platform (self s) = platform_ /\
  (platform_ = "alveo" \/ platform_ = "zynq-iodma") /\
  buffers_match s.
Proof.
  unfold init. mrun. unfold bind at 1.
  destruct (set_batch_size n _) as [[] s1| |] eqn:E1; try discriminate.
  apply set_batch_size_inv in E1.
  destruct E1 as (B1 & D1 & P1 & _ & M1). cbn [self hw trace] in *.
  setter_simpl_in D1. setter_simpl_in P1.
  destruct (platform_ =? "alveo")%string eqn:Ea.
  - mrun. intros H. apply load_runtime_weights_inv in H.
    destruct H as ((B2 & D2 & P2) & I2 & O2 & H2).
    cbn [self hw trace _batch_size _io_shape_dict platform set_odma_handle
         ibuf_packed_device obuf_packed_device obuf_packed] in *.
    apply String.eqb_eq in Ea.
    repeat split; try congruence; [left; exact Ea|].
    eapply buffers_match_kept; [| | | |exact M1]; try assumption.
    repeat split; assumption.
  - destruct (platform_ =? "zynq-iodma")%string eqn:Ez; mrun;
      [|discriminate].
    apply String.eqb_eq in Ez.
    destruct (negb (Qle_bool fclk 0)); mrun;
      (intros H; apply load_runtime_weights_inv in H;
       destruct H as ((B2 & D2 & P2) & I2 & O2 & H2);
       cbn [self hw trace] in *;
       repeat split; try congruence; [right; exact Ez|];
       eapply buffers_match_kept; [| | | |exact M1]; try assumption;
       repeat split; assumption).
Qed.

(** X4: a session the constructor returned for a descriptor whose views
    agree executes: for an input of the normal input shape with
    representable elements, on a ready engine, [execute] returns a tensor
    of the normal output shape. *)
Theorem constructed_session_executes (bitfile_name platform_ : string)
    (dict : io_shape_dict) (n : Z) (fclk : Q) (download : bool)
    (weight_dir : string) (b : board) (s : state) (x : ndarray) :
  init bitfile_name platform_ dict n fclk download weight_dir b = Ok tt s ->
  consistent_view n (io_idt dict) (io_ishape_normal dict)
                  (io_ishape_folded dict) (io_ishape_packed dict) ->
  consistent_view n (io_odt dict) (io_oshape_normal dict)
                  (io_oshape_folded dict) (io_oshape_packed dict) ->
  engine_ready s ->
  with_batch n (io_ishape_normal dict) = inr (shape x) ->
  Forall (fun v => representable (io_idt dict) v = true) (data x) ->
  exists out s',
    execute x s = Ok out s' /\
    with_batch n (io_oshape_normal dict) = inr (shape out).
Proof.
  intros Hinit (inv & ifv & ipv & Hin & Hif & Hip & _ & Hifpos & Hiprod & Hipk)
         (onv & ofv & opv & Hon & Hof & Hop & Honpos & _ & Hoprod & Hopk)
         Heng Hx Hval.
  apply init_inv in Hinit.
  destruct Hinit as (D & B & _ & _ & ib & ob & host & Ei & Eo & Eh & Sip & Sop & Shs).
  apply shape_property_ok in Sip. apply shape_property_ok in Sop.
  rewrite D, B in Sip, Sop.
  assert (Hib : buf_shape ib = ipv) by congruence.
  assert (Hob : buf_shape ob = opv) by congruence.
  assert (Hxin : inv = shape x) by congruence. subst inv.
  assert (Hready : session_ready s x).
  { constructor.
    - unfold ishape_normal, batch_size. mrun. rewrite D, B, Hx. reflexivity.
    - rewrite D. exact Hval.
    - exists ifv, ib. repeat split; try assumption.
      + unfold ishape_folded, batch_size. mrun. rewrite D, B, Hif. reflexivity.
      + congruence.
      + rewrite D, Hib. exact Hipk.
    - exists ofv, onv, ob, host. repeat split; try assumption.
      + unfold oshape_folded, batch_size. mrun. rewrite D, B, Hof. reflexivity.
      + unfold oshape_normal, batch_size. mrun. rewrite D, B, Hon. reflexivity.
      + rewrite D, Hob. exact Hopk.
    - exact Heng. }
  destruct (execute_returns x s Hready) as (out & s' & E & Hshape).
  exists out, s'. split; [exact E|].
  apply shape_property_ok in Hshape. rewrite B, D in Hshape.
  exact Hshape.
Qed.

Lemma constructed_session_executes_witness :
  exists out s',
    execute (NdArray [1; 8] [1; 2; 3; 4; 5; 6; 7; 8])
            (zynq_session [4; 0; 2]) = Ok out s' /\
    with_batch 1 (io_oshape_normal dict4) = inr (shape out).
Proof.
  apply (constructed_session_executes "finn.bit" "zynq-iodma" dict4 1
           (100 # 1) true "runtime_weights/" (ideal_board [4; 0; 2])).
  - vm_compute. reflexivity.
  - exists [1; 8], [1; 2; 4], [1; 2; 2].
    repeat split; try reflexivity; repeat constructor; lia.
  - exists [1; 8], [1; 2; 4], [1; 2; 2].
    repeat split; try reflexivity; repeat constructor; lia.
  - left. split; [reflexivity|]. exists 4, [0], 2, [].
    repeat split; try reflexivity; try discriminate. repeat constructor.
  - reflexivity.
  - repeat constructor.
Defined.

(** ** Executing on a busy engine *)

(** X7: [execute] checks the engine only after the upload.  On a busy
    engine (status not idle, or a handle outstanding) it raises the
    assertion of the launch, but by then the device input buffer holds the
    packed new input and has been flushed; no register has been written and
    no transfer started. *)
Theorem execute_on_busy_engine_overwrites_input (x : ndarray) (s : state)
    (msg : string) (folded : list Z) (ib : buffer) :
  ishape_normal s = Ok (shape x) s ->
  Forall (fun v => representable (io_idt (_io_shape_dict (self s))) v = true)
         (data x) ->
  ishape_folded s = Ok folded s ->
  Forall (fun d => 0 <= d) folded ->
  prod_shape folded = prod_shape (shape x) ->
  ibuf_packed_device (self s) = Some ib ->
  packed_shape (io_idt (_io_shape_dict (self s))) folded
    = Some (buf_shape ib) ->
  engine_busy s msg ->
  exists packed s',
    finnpy_to_packed_bytearray (NdArray folded (data x))
      (io_idt (_io_shape_dict (self s))) true true true = inr packed /\
    execute x s = Raise (AssertionError msg) s' /\
    ibuf_packed_device (self s')
      = Some (Buffer (device_address ib) (buf_shape ib) (data packed)
                     (cacheable ib)) /\
    exists rest,
      trace s' = trace s ++
                 [Call m_execute; Call m_fold_input; Call m_pack_input;
                  Call m_copy_input_data_to_device;
                  Flush (device_address ib); Call m_execute_on_buffers]
                 ++ rest /\
      forall e, In e rest -> exists v, e = RegRead ODMA 0x00 v.
Proof.
  intros Hin Hval Hif Hfpos Hfprod Eib Hip Hbusy.
  apply ishape_normal_ok in Hin. apply ishape_folded_ok in Hif.
  destruct (packed_shape_split _ _ _ Hip) as (iouter & ig & Hisplit & Hipk).
  assert (Hpack :
    finnpy_to_packed_bytearray (NdArray folded (data x))
      (io_idt (_io_shape_dict (self s))) true true true
    = inr (NdArray (buf_shape ib)
             (flat_map (pack_word (io_idt (_io_shape_dict (self s))) true true)
                (chunks (Z.to_nat (prod_shape iouter)) (Z.to_nat ig)
                        (data x))))).
  { unfold finnpy_to_packed_bytearray. cbn [shape data].
    rewrite Hisplit, (forallb_representable _ _ Hval), Hipk. reflexivity. }
  eexists.
  destruct Hbusy as [(Hz & -> & v & rest & Es & Hv)|(Ha & -> & h & Eh)];
    (eexists; split; [exact Hpack|];
     unfold execute, fold_input; mrun; rewrite Hin; mrun;
     rewrite ints_eqb_refl; mrun; rewrite Hif; mrun;
     rewrite (reshape_nonneg x folded Hfpos Hfprod); mrun;
     unfold pack_input; mrun; rewrite Hpack; mrun;
     unfold copy_input_data_to_device; mrun; rewrite Eib;
     rewrite copyto_same by reflexivity; cbn [data]; mrun;
     unfold execute_on_buffers; cbv zeta; mrun;
     setter_simpl; rewrite Z.leb_refl; mrun).
  - rewrite Hz. rewrite String.eqb_refl. mrun. mread Es. mrun.
    apply Z.eqb_eq in Hv. rewrite Hv. cbn [negb]. mrun.
    split; [reflexivity|]. split; [reflexivity|].
    exists [RegRead ODMA 0 v]. cbn [self hw trace].
    repeat rewrite <- app_assoc. split; [reflexivity|].
    intros e [<-|[]]. exists v. reflexivity.
  - rewrite Ha. cbn [String.eqb Ascii.eqb Bool.eqb]. rewrite Eh. mrun.
    split; [reflexivity|]. split; [reflexivity|].
    exists []. cbn [self hw trace].
    repeat rewrite <- app_assoc. split; [reflexivity|].
    intros e [].
Qed.

Lemma execute_on_busy_engine_overwrites_input_witness :
  exists packed s',
    finnpy_to_packed_bytearray (NdArray [1; 2; 4] [1; 2; 3; 4; 5; 6; 7; 8])
      (io_idt (_io_shape_dict (self alveo_launched))) true true true
      = inr packed /\
    execute (NdArray [1; 8] [1; 2; 3; 4; 5; 6; 7; 8]) alveo_launched
      = Raise (AssertionError "Output DMA is already running") s' /\
    ibuf_packed_device (self s')
      = Some (Buffer 4096 [1; 2; 2] (data packed) None) /\
    exists rest,
      trace s' = trace alveo_launched ++
                 [Call m_execute; Call m_fold_input; Call m_pack_input;
                  Call m_copy_input_data_to_device;
                  Flush 4096; Call m_execute_on_buffers]
                 ++ rest /\
      forall e, In e rest -> exists v, e = RegRead ODMA 0 v.
Proof.
  apply (execute_on_busy_engine_overwrites_input
           (NdArray [1; 8] [1; 2; 3; 4; 5; 6; 7; 8]) alveo_launched
           "Output DMA is already running" [1; 2; 4]
           (Buffer 4096 [1; 2; 2] [0; 0; 0; 0] None)).
  - reflexivity.
  - repeat constructor.
  - reflexivity.
  - repeat constructor; lia.
  - reflexivity.
  - reflexivity.
  - reflexivity.
  - right. split; [reflexivity|]. split; [reflexivity|].
    exists 1%nat. reflexivity.
Defined.

(** ** Executing again *)

Lemma shape_property_transfer (s s' : state) (t v : list Z) :
  _batch_size (self s') = _batch_size (self s) ->
  lift (with_batch (_batch_size (self s)) t) s = Ok v s ->
  lift (with_batch (_batch_size (self s')) t) s' = Ok v s'.
Proof.
  intros Hb H. apply shape_property_ok in H. rewrite Hb, H. reflexivity.
Qed.

(** X6: on the handle-based backend a session that is ready for an input
    is ready for it again after [execute] has returned, so [execute] can be
    repeated. *)
Theorem execute_keeps_ready_on_alveo (x out : ndarray) (s s' : state) :
  platform (self s) = "alveo" ->
  session_ready s x ->
  execute x s = Ok out s' ->
  session_ready s' x.
Proof.
  intros Ha [Hin Hval (folded & ib & Hif & Hfpos & Hfprod & Eib & Hip)
                 (ofolded & onormal & ob & host & Hof & Hon & Hnpos & Hnprod &
                  Eob & Ehost & Hhs & Hop) _] E.
  apply execute_frame in E.
  destruct E as ((B & D & P) & Hi & Ho & Hh & Hidle).
  destruct (Hi ib Eib) as (ib' & Eib' & _ & Sib').
  destruct (Ho ob Eob) as (ob' & Eob' & _ & Sob').
  destruct Hh as (host0 & host' & Ehost0 & Ehost' & Shost0).
  assert (Shost' : shape host' = buf_shape ob') by congruence.
  constructor.
  - change (lift (with_batch (_batch_size (self s'))
                    (io_ishape_normal (_io_shape_dict (self s')))) s'
            = Ok (shape x) s').
    rewrite D. apply (shape_property_transfer s); [exact B | exact Hin].
  - rewrite D. exact Hval.
  - exists folded, ib'. repeat split; try assumption.
    + change (lift (with_batch (_batch_size (self s'))
                      (io_ishape_folded (_io_shape_dict (self s')))) s'
              = Ok folded s').
      rewrite D. apply (shape_property_transfer s); [exact B | exact Hif].
    + rewrite D, Sib'. exact Hip.
  - exists ofolded, onormal, ob', host'. repeat split; try assumption.
    + change (lift (with_batch (_batch_size (self s'))
                      (io_oshape_folded (_io_shape_dict (self s')))) s'
              = Ok ofolded s').
      rewrite D. apply (shape_property_transfer s); [exact B | exact Hof].
    + change (lift (with_batch (_batch_size (self s'))
                      (io_oshape_normal (_io_shape_dict (self s')))) s'
              = Ok onormal s').
      rewrite D. apply (shape_property_transfer s); [exact B | exact Hon].
    + rewrite D, Sob'. exact Hop.
  - right. split; [congruence | exact (Hidle Ha)].
Qed.

Lemma execute_keeps_ready_on_alveo_witness :
  session_ready
    (final_state (execute (NdArray [1; 8] [1; 2; 3; 4; 5; 6; 7; 8])
                          alveo_session))
    (NdArray [1; 8] [1; 2; 3; 4; 5; 6; 7; 8]).
Proof.
  refine (execute_keeps_ready_on_alveo
            (NdArray [1; 8] [1; 2; 3; 4; 5; 6; 7; 8])
            (NdArray [1; 8] [1; 2; 3; 4; 5; 6; 7; 8])
            alveo_session _ _ _ _).
  - reflexivity.
  - constructor.
    + reflexivity.
    + repeat constructor.
    + exists [1; 2; 4], (Buffer 4096 [1; 2; 2] [0; 0; 0; 0] None).
      repeat split; try reflexivity. repeat constructor; lia.
    + exists [1; 2; 4], [1; 8], (Buffer 4100 [1; 2; 2] [0; 0; 0; 0] None),
        (NdArray [1; 2; 2] [0; 0; 0; 0]).
      repeat split; try reflexivity. repeat constructor; lia.
    + right. split; reflexivity.
  - vm_compute. reflexivity.
Defined.
